(** * Raft heartbeat manager: planner, dispatcher and reply router

    Shallow embedding of [src/v/raft/heartbeat_manager.cc].

    - hash maps ([absl::flat_hash_map]) are stdpp [gmap]s, hash sets
      ([absl::flat_hash_set]) are [gset]s; iterating one of them is
      [map_to_list] / [elements], one admissible iteration order;
    - the registry ([consensus_set], a flat set of shared pointers ordered
      by [group()]) is the list of its handles in iteration order, each
      handle kept as the pair of its immutable group id and the mutable
      state it points to;
    - the consensus instance and the client protocol are the interfaces the
      file calls ([Consensus], [ClientProtocol]); every call that mutates
      one of them is threaded through explicitly and recorded in a trace. *)

From Stdlib Require Import ZArith List Lia.
From stdpp Require Import base option list gmap sets fin_maps.

(** ** Data model *)

(** [model::node_id], [raft::group_id], [model::revision_id],
    [model::offset], [model::term_id], [follower_req_seq] are integer named
    types; the file only copies and compares them.  Time points and
    durations of [clock_type] are 64-bit tick counts; the two sums and the
    difference the file computes on them stay far from the bounds for any
    reading of the clock, and are taken in [Z]. *)
Abbreviation node_id := Z (only parsing).
Abbreviation group_id := Z (only parsing).
Abbreviation revision_id := Z (only parsing).
Abbreviation offset := Z (only parsing).
Abbreviation term_id := Z (only parsing).
Abbreviation follower_req_seq := Z (only parsing).
Abbreviation time_point := Z (only parsing).
Abbreviation duration := Z (only parsing).
Abbreviation error_code := Z (only parsing).
Abbreviation exception_ptr := Z (only parsing).

(** [raft::vnode]: a node id at a revision. *)
Record vnode := mk_vnode { vnode_id : node_id; vnode_revision : revision_id }.

#[global] Instance vnode_eq_dec : EqDecision vnode.
Proof. solve_decision. Defined.

(** [raft::protocol_metadata], the value of [consensus::meta()]. *)
Record protocol_metadata := mk_protocol_metadata {
  group : group_id;
  commit_index : offset;
  term : term_id;
  prev_log_index : offset;
  prev_log_term : term_id }.

(** [raft::heartbeat_metadata]: [{meta, node_id, target_node_id}]. *)
Record heartbeat_metadata := mk_heartbeat_metadata {
  hb_meta : protocol_metadata;
  hb_node_id : vnode;
  hb_target_node_id : vnode }.

(** [heartbeat_manager::follower_request_meta]. *)
Record follower_request_meta := mk_follower_request_meta {
  seq : follower_req_seq;
  dirty_offset : offset;
  follower_vnode : vnode }.

(** [heartbeat_manager::node_heartbeat]; [request] is the [heartbeats]
    vector of the [heartbeat_request]. *)
Record node_heartbeat := mk_node_heartbeat {
  target : node_id;
  request : list heartbeat_metadata;
  meta_map : gmap Z follower_request_meta }.

(** [append_entries_reply::status]. *)
Inductive status := success | failure | group_unavailable | timeout.

(** [raft::append_entries_reply], with the fields this file names. *)
Record append_entries_reply := mk_append_entries_reply {
  reply_target_node_id : vnode;
  reply_node_id : vnode;
  reply_group : group_id;
  reply_result : status }.

(** [result<T>]: a value or an error code. *)
Inductive result (A : Type) := Ok (a : A) | Err (e : error_code).
Arguments Ok {A} a.
Arguments Err {A} e.

(** [rpc::compression_type], as far as it is named here. *)
Inductive compression_type := compression_none | compression_zstd.

(** ** Trace of effects

    One constructor per call the file makes on a collaborator (consensus
    instance, probe, client protocol, logger), with the arguments passed
    and, for [next_follower_sequence] and [ensure_disconnect], what came
    back.  [pending_emplace] is a ghost event: it records an
    [emplace_back] on the planner's local [pending_beats]. *)
Inductive event :=
| call_next_follower_sequence (g : group_id) (v : vnode) (s : follower_req_seq)
| call_update_suppress_heartbeats
    (g : group_id) (v : vnode) (s : follower_req_seq) (suppressed : bool)
| call_update_heartbeat_status (g : group_id) (v : vnode) (ok : bool)
| call_process_append_entries_reply
    (g : group_id) (n : node_id) (r : result append_entries_reply)
    (s : follower_req_seq) (dirty : offset)
| call_heartbeat_request_error (g : group_id)
| pending_emplace (n : node_id) (hb : heartbeat_metadata) (s : follower_req_seq)
| log_skipping_beat
    (v : vnode) (g : group_id) (last_hb last_append : time_point)
| log_could_not_send (n : node_id) (e : error_code)
| log_cannot_find_consensus_group (g : group_id)
| log_could_not_find_consensus (g : group_id)
| call_ensure_disconnect (n : node_id) (r : bool + exception_ptr)
| log_closed_unresponsive_connection (n : node_id)
| call_heartbeat
    (n : node_id) (req : list heartbeat_metadata) (deadline : time_point)
    (c : compression_type) (min_compression_bytes : Z).

(** ** Interfaces of the collaborators *)

(** The part of [raft::consensus] the heartbeat manager calls.  Queries
    read the state; a call that changes the instance returns the new
    state.  [config c] is the sequence of vnodes that
    [ptr->config().for_each_broker_id] visits. *)
Class Consensus (C : Type) := {
  is_leader : C → bool;
  self : C → vnode;
  meta : C → protocol_metadata;
  config : C → list vnode;
  are_heartbeats_suppressed : C → vnode → bool;
  last_append_timestamp : C → vnode → time_point;
  next_follower_sequence : C → vnode → follower_req_seq * C;
  update_suppress_heartbeats : C → vnode → follower_req_seq → bool → C;
  should_reconnect_follower : C → vnode → bool;
  update_heartbeat_status : C → vnode → bool → C;
  process_append_entries_reply :
    C → node_id → result append_entries_reply → follower_req_seq → offset → C;
  heartbeat_request_error : C → C }.

(** The part of [consensus_client_protocol] used synchronously:
    [ensure_disconnect] yields a boolean or fails with an exception. *)
Class ClientProtocol (T : Type) := {
  ensure_disconnect : T → node_id → (bool + exception_ptr) * T }.

(** ** The request planner: [requests_for_range] *)

Section planner.
Context {C : Type} `{!Consensus C}.

(** A default-constructed [vnode], which brace initialisation leaves in a
    member that is given no initialiser. *)
Variable vnode_default : vnode.

(** The planner's two local containers. *)
Record planner := mk_planner {
  pending_beats : gmap Z (list (heartbeat_metadata * Z));
  reconnect_nodes : gset Z }.

(** [pending_beats[n].emplace_back(hb, seq)]: [operator[]] creates the
    empty vector on first use. *)
Definition emplace_back (n : node_id) (x : heartbeat_metadata * Z)
    (pb : gmap Z (list (heartbeat_metadata * Z)))
  : gmap Z (list (heartbeat_metadata * Z)) :=
  <[n := default [] (pb !! n) ++ [x]]> pb.

(** The lambda [maybe_create_follower_request], applied to one vnode
    [rni] of the configuration of the handle [(g, ptr)]. *)
Definition maybe_create_follower_request
    (g : group_id) (last_heartbeat : time_point) (rni : vnode)
    (st : C * planner) : (C * planner) * list event :=
  let '(ptr, pl) := st in
  if decide (rni = self ptr) then
    let hb := mk_heartbeat_metadata (meta ptr) rni vnode_default in
    ((ptr,
      mk_planner (emplace_back (vnode_id rni) (hb, 0%Z) (pending_beats pl))
                 (reconnect_nodes pl)),
     [pending_emplace (vnode_id rni) hb 0%Z])
  else if are_heartbeats_suppressed ptr rni then (st, [])
  else
    let ts := last_append_timestamp ptr rni in
    if (last_heartbeat <? ts)%Z then
      (st, [log_skipping_beat rni g last_heartbeat ts])
    else
      let '(seq_id, p1) := next_follower_sequence ptr rni in
      let p2 := update_suppress_heartbeats p1 rni seq_id true in
      let hb := mk_heartbeat_metadata (meta p2) (self p2) rni in
      let pb := emplace_back (vnode_id rni) (hb, seq_id) (pending_beats pl) in
      let rn :=
        if should_reconnect_follower p2 rni
        then {[vnode_id rni]} ∪ reconnect_nodes pl
        else reconnect_nodes pl in
      ((p2, mk_planner pb rn),
       [call_next_follower_sequence g rni seq_id;
        call_update_suppress_heartbeats g rni seq_id true;
        pending_emplace (vnode_id rni) hb seq_id]).

(** [group.for_each_broker_id(f)]. *)
Fixpoint for_each_broker_id
    (f : vnode → C * planner → (C * planner) * list event)
    (vs : list vnode) (st : C * planner) : (C * planner) * list event :=
  match vs with
  | [] => (st, [])
  | v :: vs' =>
      let '(st1, t1) := f v st in
      let '(st2, t2) := for_each_broker_id f vs' st1 in
      (st2, t1 ++ t2)
  end.

(** The loop [for (auto& ptr : c)]. *)
Fixpoint plan_groups (last_heartbeat : time_point)
    (c : list (Z * C)) (pl : planner)
  : list (Z * C) * planner * list event :=
  match c with
  | [] => ([], pl, [])
  | (g, ptr) :: rest =>
      if negb (is_leader ptr) then
        let '(rest', pl', t) := plan_groups last_heartbeat rest pl in
        ((g, ptr) :: rest', pl', t)
      else
        let '((ptr', pl1), t1) :=
          for_each_broker_id
            (maybe_create_follower_request g last_heartbeat)
            (config ptr) (ptr, pl) in
        let '(rest', pl2, t2) := plan_groups last_heartbeat rest pl1 in
        ((g, ptr') :: rest', pl2, t1 ++ t2)
  end.

(** [meta_map.emplace(k, v)]: no effect when [k] is already a key. *)
Definition emplace (k : group_id) (v : follower_request_meta)
    (m : gmap Z follower_request_meta) : gmap Z follower_request_meta :=
  match m !! k with
  | Some _ => m
  | None => <[k := v]> m
  end.

(** The body of the loop over [pending_beats]: one [node_heartbeat] from
    one entry [p]. *)
Definition build_meta_map (beats : list (heartbeat_metadata * Z))
  : gmap Z follower_request_meta :=
  foldl (λ m '(hb, s),
           emplace (group (hb_meta hb))
             (mk_follower_request_meta
                s (prev_log_index (hb_meta hb)) (hb_target_node_id hb)) m)
        ∅ beats.

Definition build_node_heartbeat
    (p : Z * list (heartbeat_metadata * Z)) : node_heartbeat :=
  mk_node_heartbeat p.1 (fst <$> p.2) (build_meta_map p.2).

(** [struct heartbeat_requests]. *)
Record heartbeat_requests := mk_heartbeat_requests {
  requests : list node_heartbeat;
  reconnect : gset Z }.

(** What one run of the planner yields: the value returned, the handles
    after the calls made on them, and the trace of those calls. *)
Record planned := mk_planned {
  reqs : heartbeat_requests;
  groups_after : list (Z * C);
  plan_trace : list event }.

Definition requests_for_range
    (c : list (Z * C)) (heartbeat_interval : duration) (now : time_point)
  : planned :=
  match c with
  | [] => mk_planned (mk_heartbeat_requests [] ∅) [] []
  | _ =>
      let last_heartbeat := (now - heartbeat_interval)%Z in
      let '(c', pl, t) := plan_groups last_heartbeat c (mk_planner ∅ ∅) in
      mk_planned
        (mk_heartbeat_requests
           (build_node_heartbeat <$> map_to_list (pending_beats pl))
           (reconnect_nodes pl))
        c' t
  end.

End planner.

(** ** The reply router: [process_reply] *)

Section reply_router.
Context {C : Type} `{!Consensus C}.

(** [_consensus_groups.find(g)]: the handle whose group id is [g]. *)
Fixpoint find_group (g : group_id) (reg : list (Z * C)) : option C :=
  match reg with
  | [] => None
  | (g', c) :: rest => if decide (g' = g) then Some c else find_group g rest
  end.

(** The calls made through [*it] update the instance the registry points
    to; the set itself is not changed. *)
Fixpoint update_group (g : group_id) (f : C → C) (reg : list (Z * C))
  : list (Z * C) :=
  match reg with
  | [] => []
  | (g', c) :: rest =>
      if decide (g' = g) then (g', f c) :: rest
      else (g', c) :: update_group g f rest
  end.

(** The three calls and the probe of the error branch, on one instance. *)
Definition route_error (n : node_id) (e : error_code)
    (req_meta : follower_request_meta) (c : C) : C :=
  let c1 := update_heartbeat_status c (follower_vnode req_meta) false in
  let c2 :=
    update_suppress_heartbeats c1 (follower_vnode req_meta) (seq req_meta) false in
  let c3 :=
    process_append_entries_reply c2 n (Err e) (seq req_meta) (dirty_offset req_meta) in
  heartbeat_request_error c3.

Definition route_error_trace (n : node_id) (e : error_code)
    (g : group_id) (req_meta : follower_request_meta) : list event :=
  [call_update_heartbeat_status g (follower_vnode req_meta) false;
   call_update_suppress_heartbeats
     g (follower_vnode req_meta) (seq req_meta) false;
   call_process_append_entries_reply
     g n (Err e) (seq req_meta) (dirty_offset req_meta);
   call_heartbeat_request_error g].

(** The loop [for (auto& [g, req_meta] : groups)] of the error branch. *)
Fixpoint process_reply_error (n : node_id) (e : error_code)
    (groups : list (Z * follower_request_meta)) (reg : list (Z * C))
  : list (Z * C) * list event :=
  match groups with
  | [] => (reg, [])
  | (g, req_meta) :: rest =>
      match find_group g reg with
      | None =>
          let '(reg', t) := process_reply_error n e rest reg in
          (reg', log_cannot_find_consensus_group g :: t)
      | Some _ =>
          let reg1 := update_group g (route_error n e req_meta) reg in
          let '(reg', t) := process_reply_error n e rest reg1 in
          (reg', route_error_trace n e g req_meta ++ t)
      end
  end.

(** The three calls of the success branch, on one instance. *)
Definition route_success (n : node_id) (m : append_entries_reply)
    (fm : follower_request_meta) (c : C) : C :=
  let c1 := update_heartbeat_status c (follower_vnode fm) true in
  let c2 := update_suppress_heartbeats c1 (follower_vnode fm) (seq fm) false in
  process_append_entries_reply c2 n (Ok m) (seq fm) (dirty_offset fm).

Definition route_success_trace (n : node_id) (m : append_entries_reply)
    (fm : follower_request_meta) : list event :=
  [call_update_heartbeat_status (reply_group m) (follower_vnode fm) true;
   call_update_suppress_heartbeats
     (reply_group m) (follower_vnode fm) (seq fm) false;
   call_process_append_entries_reply
     (reply_group m) n (Ok m) (seq fm) (dirty_offset fm)].

(** The loop [for (auto& m : r.value().meta)].  [groups.find(m.group)] is
    dereferenced unchecked: when the key is missing the behaviour is
    undefined, which is the result [None]. *)
Fixpoint process_reply_success (n : node_id)
    (groups : gmap Z follower_request_meta)
    (ms : list append_entries_reply) (reg : list (Z * C))
  : option (list (Z * C) * list event) :=
  match ms with
  | [] => Some (reg, [])
  | m :: rest =>
      match find_group (reply_group m) reg with
      | None =>
          match process_reply_success n groups rest reg with
          | Some (reg', t) =>
              Some (reg', log_could_not_find_consensus (reply_group m) :: t)
          | None => None
          end
      | Some _ =>
          match groups !! reply_group m with
          | None => None
          | Some fm =>
              let reg1 := update_group (reply_group m) (route_success n m fm) reg in
              match process_reply_success n groups rest reg1 with
              | Some (reg', t) => Some (reg', route_success_trace n m fm ++ t)
              | None => None
              end
          end
      end
  end.

(** [heartbeat_manager::process_reply]; a [heartbeat_reply] is the vector
    [meta] of its per-group replies. *)
Definition process_reply (n : node_id)
    (groups : gmap Z follower_request_meta)
    (r : result (list append_entries_reply)) (reg : list (Z * C))
  : option (list (Z * C) * list event) :=
  match r with
  | Err e =>
      let '(reg', t) := process_reply_error n e (map_to_list groups) reg in
      Some (reg', log_could_not_send n e :: t)
  | Ok reply => process_reply_success n groups reply reg
  end.

End reply_router.

(** ** The dispatcher *)

Section dispatcher.
Context {C T : Type} `{!Consensus C} `{!ClientProtocol T}.
Variable vnode_default : vnode.

(** The members of [heartbeat_manager] the dispatch reads and writes. *)
Record heartbeat_manager := mk_heartbeat_manager {
  heartbeat_interval : duration;
  heartbeat_timeout : duration;
  client_protocol : T;
  self_node : node_id;
  consensus_groups : list (Z * C) }.

(** The reply [do_self_heartbeat] builds with [std::transform]. *)
Definition self_reply (hbs : list heartbeat_metadata)
  : list append_entries_reply :=
  (λ hb, mk_append_entries_reply
           (hb_target_node_id hb) (hb_target_node_id hb)
           (group (hb_meta hb)) success) <$> hbs.

Definition do_self_heartbeat (r : node_heartbeat) (reg : list (Z * C))
  : option (list (Z * C) * list event) :=
  process_reply (target r) (meta_map r) (Ok (self_reply (request r))) reg.

(** [do_heartbeat] up to the point where it returns its future: the RPC is
    handed to the client protocol.  The continuation attached with [then]
    is [heartbeat_continuation], run when the client protocol completes
    the call with [ret]. *)
Definition do_heartbeat (timeout_ : duration) (now : time_point)
    (r : node_heartbeat) : list event :=
  [call_heartbeat (target r) (request r) (now + timeout_)%Z compression_zstd 512%Z].

Definition heartbeat_continuation (r : node_heartbeat)
    (ret : result (list append_entries_reply)) (reg : list (Z * C))
  : option (list (Z * C) * list event) :=
  process_reply (target r) (meta_map r) ret reg.

(** The loop of [send_heartbeats]. *)
Fixpoint send_heartbeats (self_ : node_id) (timeout_ : duration)
    (now : time_point) (rs : list node_heartbeat) (reg : list (Z * C))
  : option (list (Z * C) * list event) :=
  match rs with
  | [] => Some (reg, [])
  | r :: rest =>
      if decide (target r = self_) then
        match do_self_heartbeat r reg with
        | None => None
        | Some (reg1, t1) =>
            match send_heartbeats self_ timeout_ now rest reg1 with
            | None => None
            | Some (reg2, t2) => Some (reg2, t1 ++ t2)
            end
        end
      else
        match send_heartbeats self_ timeout_ now rest reg with
        | None => None
        | Some (reg2, t2) => Some (reg2, do_heartbeat timeout_ now r ++ t2)
        end
  end.

(** The loop over [reqs.reconnect_nodes]: each [co_await] finishes before
    the next call; an exception leaves the loop and the coroutine. *)
Fixpoint ensure_disconnect_all (ns : list Z) (tp : T)
  : T * list event * option exception_ptr :=
  match ns with
  | [] => (tp, [], None)
  | n :: rest =>
      match ensure_disconnect tp n with
      | (inl b, tp1) =>
          let '(tp2, t, x) := ensure_disconnect_all rest tp1 in
          (tp2,
           call_ensure_disconnect n (inl b)
             :: (if b then [log_closed_unresponsive_connection n] else []) ++ t,
           x)
      | (inr e, tp1) => (tp1, [call_ensure_disconnect n (inr e)], Some e)
      end
  end.

(** How the coroutine [do_dispatch_heartbeats] ends. *)
Inductive completion := completed | threw (e : exception_ptr).

(** [do_dispatch_heartbeats]: the clock is read as [now] by the planner
    and as [now_send] when the batches are handed out.  The trace is the
    one of the coroutine's own steps; the reply to an RPC is routed by
    [heartbeat_continuation] when the client protocol delivers it.  The
    result [None] stands for the undefined behaviour [process_reply] can
    have on a self-addressed batch. *)
Definition do_dispatch_heartbeats (m : heartbeat_manager)
    (now now_send : time_point)
  : option (heartbeat_manager * list event * completion) :=
  let p := requests_for_range vnode_default
             (consensus_groups m) (heartbeat_interval m) now in
  let '(tp, t1, x) :=
    ensure_disconnect_all (elements (reconnect (reqs p))) (client_protocol m) in
  match x with
  | Some e =>
      Some (mk_heartbeat_manager (heartbeat_interval m) (heartbeat_timeout m)
              tp (self_node m) (groups_after p),
            plan_trace p ++ t1, threw e)
  | None =>
      match send_heartbeats (self_node m) (heartbeat_timeout m) now_send
              (requests (reqs p)) (groups_after p) with
      | None => None
      | Some (reg, t2) =>
          Some (mk_heartbeat_manager (heartbeat_interval m) (heartbeat_timeout m)
                  tp (self_node m) reg,
                plan_trace p ++ t1 ++ t2, completed)
      end
  end.

End dispatcher.

(** ** A small consensus instance and client protocol

    A concrete implementation of the two interfaces, used to run the
    definitions above on examples. *)

Record sample_group := mk_sample_group {
  sg_leader : bool;
  sg_self : vnode;
  sg_meta : protocol_metadata;
  sg_config : list vnode;
  sg_suppressed : list vnode;
  sg_last_append : time_point;
  sg_next_seq : follower_req_seq;
  sg_failing : list vnode;
  sg_replies : list (result append_entries_reply);
  sg_errors : nat }.

Definition sg_remove (v : vnode) (vs : list vnode) : list vnode :=
  filter (λ w, w ≠ v) vs.

#[global] Instance sample_consensus : Consensus sample_group := {|
  is_leader := sg_leader;
  self := sg_self;
  meta := sg_meta;
  config := sg_config;
  are_heartbeats_suppressed c v := bool_decide (v ∈ sg_suppressed c);
  last_append_timestamp c _ := sg_last_append c;
  next_follower_sequence c _ :=
    (sg_next_seq c,
     mk_sample_group (sg_leader c) (sg_self c) (sg_meta c) (sg_config c)
       (sg_suppressed c) (sg_last_append c) (sg_next_seq c + 1)%Z
       (sg_failing c) (sg_replies c) (sg_errors c));
  update_suppress_heartbeats c v _ on :=
    mk_sample_group (sg_leader c) (sg_self c) (sg_meta c) (sg_config c)
      (if on then v :: sg_suppressed c else sg_remove v (sg_suppressed c))
      (sg_last_append c) (sg_next_seq c) (sg_failing c) (sg_replies c)
      (sg_errors c);
  should_reconnect_follower c v := bool_decide (v ∈ sg_failing c);
  update_heartbeat_status c v ok :=
    mk_sample_group (sg_leader c) (sg_self c) (sg_meta c) (sg_config c)
      (sg_suppressed c) (sg_last_append c) (sg_next_seq c)
      (if ok then sg_remove v (sg_failing c) else v :: sg_failing c)
      (sg_replies c) (sg_errors c);
  process_append_entries_reply c _ r _ _ :=
    mk_sample_group (sg_leader c) (sg_self c) (sg_meta c) (sg_config c)
      (sg_suppressed c) (sg_last_append c) (sg_next_seq c) (sg_failing c)
      (sg_replies c ++ [r]) (sg_errors c);
  heartbeat_request_error c :=
    mk_sample_group (sg_leader c) (sg_self c) (sg_meta c) (sg_config c)
      (sg_suppressed c) (sg_last_append c) (sg_next_seq c) (sg_failing c)
      (sg_replies c) (S (sg_errors c)) |}.

(** A client protocol that knows which connections are open and for which
    nodes tearing the connection down fails. *)
Record sample_transport := mk_sample_transport {
  st_open : list Z;
  st_broken : list Z }.

#[global] Instance sample_client_protocol : ClientProtocol sample_transport := {|
  ensure_disconnect tp n :=
    if bool_decide (n ∈ st_broken tp) then (inr 1%Z, tp)
    else if bool_decide (n ∈ st_open tp)
         then (inl true,
               mk_sample_transport (filter (λ k, k ≠ n) (st_open tp)) (st_broken tp))
         else (inl false, tp) |}.

Definition sample_default_vnode : vnode := mk_vnode (-1) (-1).
Definition sample_meta (g : group_id) : protocol_metadata :=
  mk_protocol_metadata g 10 3 12 3.

(** Node 1 leads group [g]; the followers are given by [others]. *)
Definition sample_leader (g : group_id) (others : list vnode)
    (last_append : time_point) : sample_group :=
  mk_sample_group true (mk_vnode 1 0) (sample_meta g)
    (mk_vnode 1 0 :: others) [] last_append 5 [] [] 0.

Definition sample_one : list (Z * sample_group) :=
  [(7%Z, sample_leader 7 [mk_vnode 2 0] 0)].

Definition sample_two : list (Z * sample_group) :=
  [(7%Z, sample_leader 7 [mk_vnode 2 0] 0);
   (8%Z, sample_leader 8 [mk_vnode 2 0; mk_vnode 3 0] 0)].

(** Node 2 is a voter of group 7 at two revisions. *)
Definition sample_same_node : list (Z * sample_group) :=
  [(7%Z, sample_leader 7 [mk_vnode 2 0; mk_vnode 2 4] 0)].

(** Node 1 leads group [g]; its followers have failed often enough for
    [should_reconnect_follower] to say yes. *)
Definition sample_failing_leader (g : group_id) (others : list vnode)
  : sample_group :=
  mk_sample_group true (mk_vnode 1 0) (sample_meta g)
    (mk_vnode 1 0 :: others) [] 0 5 others [] 0.

(** A manager on node 1, interval 100, timeout 50, with open connections
    to nodes 2 and 3; [broken] lists the nodes whose connection cannot be
    torn down. *)
Definition sample_manager (broken : list Z) (groups : list (Z * sample_group))
  : heartbeat_manager :=
  mk_heartbeat_manager 100 50 (mk_sample_transport [2%Z; 3%Z] broken) 1 groups.

Definition sample_beat (g : group_id) (to : vnode)
  : heartbeat_metadata :=
  mk_heartbeat_metadata (sample_meta g) (mk_vnode 1 0) to.

(** The batch for node 2 that the planner makes from [sample_same_node]:
    two beats of group 7, one entry in the [meta_map]. *)
Definition sample_same_node_batch : node_heartbeat :=
  mk_node_heartbeat 2
    [sample_beat 7 (mk_vnode 2 0); sample_beat 7 (mk_vnode 2 4)]
    {[7%Z := mk_follower_request_meta 5 12 (mk_vnode 2 0)]}.

(** The batch for node 2 that the planner makes from [sample_two]. *)
Definition sample_two_batch : node_heartbeat :=
  mk_node_heartbeat 2
    [sample_beat 7 (mk_vnode 2 0); sample_beat 8 (mk_vnode 2 0)]
    {[7%Z := mk_follower_request_meta 5 12 (mk_vnode 2 0);
      8%Z := mk_follower_request_meta 5 12 (mk_vnode 2 0)]}.

(** A leader that is its group's only voter, with its own vnode marked
    suppressed and an append at time 1000. *)
Definition sample_single : sample_group :=
  mk_sample_group true (mk_vnode 1 0) (sample_meta 7)
    [mk_vnode 1 0] [mk_vnode 1 0] 1000 5 [] [] 0.

(** The batch a manager on node 1 addresses to itself for group 7. *)
Definition sample_self_batch : node_heartbeat :=
  mk_node_heartbeat 1
    [mk_heartbeat_metadata (sample_meta 7) (mk_vnode 1 0) sample_default_vnode]
    {[7%Z := mk_follower_request_meta 0 12 sample_default_vnode]}.

(** A [meta_map] for groups 7 and 9, and replies naming groups 7 and 8. *)
Definition sample_meta_map : gmap Z follower_request_meta :=
  {[7%Z := mk_follower_request_meta 5 12 (mk_vnode 2 0);
    9%Z := mk_follower_request_meta 3 12 (mk_vnode 2 0)]}.

Definition sample_reply (g : group_id) : append_entries_reply :=
  mk_append_entries_reply (mk_vnode 2 0) (mk_vnode 2 0) g success.

(** ** Reading a trace *)

(** The [emplace_back]s on [pending_beats] recorded in a trace, in order. *)
Fixpoint emplaced (t : list event) : list (Z * (heartbeat_metadata * Z)) :=
  match t with
  | [] => []
  | pending_emplace n hb s :: t' => (n, (hb, s)) :: emplaced t'
  | _ :: t' => emplaced t'
  end.

(** The beats recorded for node [n], in order. *)
Definition beats_for (n : node_id) (es : list (Z * (heartbeat_metadata * Z)))
  : list (heartbeat_metadata * Z) :=
  (filter (λ p, p.1 = n) es).*2.

(** Replaying recorded [emplace_back]s on a map. *)
Definition replay (es : list (Z * (heartbeat_metadata * Z)))
    (pb : gmap Z (list (heartbeat_metadata * Z)))
  : gmap Z (list (heartbeat_metadata * Z)) :=
  foldl (λ m p, emplace_back p.1 p.2 m) pb es.

(** The group ids of the entries of a request. *)
Definition request_groups (hbs : list heartbeat_metadata) : list Z :=
  (λ hb, group (hb_meta hb)) <$> hbs.

(** The entries of a [meta_map] stored under the key [g]. *)
Definition entries_of (g : group_id) (m : gmap Z follower_request_meta)
  : list (Z * follower_request_meta) :=
  filter (λ p, p.1 = g) (map_to_list m).

(** An event that is a call on a consensus instance or on its probe. *)
Definition is_state_call (e : event) : bool :=
  match e with
  | call_next_follower_sequence _ _ _
  | call_update_suppress_heartbeats _ _ _ _
  | call_update_heartbeat_status _ _ _
  | call_process_append_entries_reply _ _ _ _ _
  | call_heartbeat_request_error _ => true
  | _ => false
  end.

(** An event that is a request handed to the client protocol. *)
Definition is_transport_call (e : event) : bool :=
  match e with
  | call_heartbeat _ _ _ _ _ | call_ensure_disconnect _ _ => true
  | _ => false
  end.

Definition is_heartbeat_call (e : event) : bool :=
  match e with
  | call_heartbeat _ _ _ _ _ => true
  | _ => false
  end.

Definition is_ensure_disconnect (e : event) : bool :=
  match e with
  | call_ensure_disconnect _ _ => true
  | _ => false
  end.

(** The beat the leader puts on its own node's vector. *)
Definition self_beat {C : Type} `{!Consensus C} (vnode_default : vnode)
    (ptr : C) : heartbeat_metadata :=
  mk_heartbeat_metadata (meta ptr) (self ptr) vnode_default.

(** What the error branch of the router does for one entry of the
    [meta_map], told by whether the registry has the group. *)
Definition error_pair_trace {C : Type} (reg : list (Z * C))
    (n : node_id) (e : error_code) (p : Z * follower_request_meta)
  : list event :=
  match find_group p.1 reg with
  | Some _ => route_error_trace n e p.1 p.2
  | None => [log_cannot_find_consensus_group p.1]
  end.

(** The [ensure_disconnect] calls of a trace with their outcomes. *)
Definition disconnect_calls (t : list event)
  : list (Z * (bool + exception_ptr)) :=
  omap (λ e, match e with
             | call_ensure_disconnect n r => Some (n, r)
             | _ => None
             end) t.

(** The RPCs a list of batches needs: one per batch not addressed to
    [self_]. *)
Definition expected_sends (self_ : node_id) (timeout_ : duration)
    (now : time_point) (rs : list node_heartbeat) : list event :=
  concat (do_heartbeat timeout_ now <$> filter (λ r, target r ≠ self_) rs).

(** Every group of the request of a batch is a key of its [meta_map]. *)
Definition covered (r : node_heartbeat) : Prop :=
  ∀ hb, hb ∈ request r → is_Some (meta_map r !! group (hb_meta hb)).

(** ** The registry: [register_group], [deregister_group]

    [consensus_set] keeps its handles ordered by group id, one handle per
    group id.  The order is taken as increasing; what is proved about
    insertion, lookup and removal does not depend on the direction. *)

Section registry.
Context {C : Type}.

(** The invariant of the flat set: strictly increasing group ids. *)
Fixpoint registry_ok (reg : list (Z * C)) : Prop :=
  match reg with
  | [] => True
  | (g, _) :: rest => Forall (λ p, (g < p.1)%Z) rest ∧ registry_ok rest
  end.

(** [_consensus_groups.insert(ptr)]: the handle goes before the first
    handle whose group id is not smaller, unless that one has the same
    group id; the boolean is [ret.second]. *)
Fixpoint insert_group (g : group_id) (c : C) (reg : list (Z * C))
  : list (Z * C) * bool :=
  match reg with
  | [] => ([(g, c)], true)
  | (g', c') :: rest =>
      if (g' <? g)%Z then
        let '(rest', inserted) := insert_group g c rest in
        ((g', c') :: rest', inserted)
      else if decide (g' = g) then (reg, false)
      else ((g, c) :: reg, true)
  end.

(** [_consensus_groups.erase(it)] for the iterator [find(g)] returned. *)
Fixpoint erase_group (g : group_id) (reg : list (Z * C)) : list (Z * C) :=
  match reg with
  | [] => []
  | (g', c) :: rest =>
      if decide (g' = g) then rest else (g', c) :: erase_group g rest
  end.

(** The body [register_group] runs under [_lock]; [None] is the failed
    [vassert], which ends the process. *)
Definition register_group (ptr : Z * C) (reg : list (Z * C))
  : option (list (Z * C)) :=
  let '(reg', inserted) := insert_group ptr.1 ptr.2 reg in
  if inserted then Some reg' else None.

(** The body [deregister_group] runs under [_lock]; [None] is the failed
    [vassert]. *)
Definition deregister_group (g : group_id) (reg : list (Z * C))
  : option (list (Z * C)) :=
  match find_group g reg with
  | None => None
  | Some _ => Some (erase_group g reg)
  end.

End registry.

(** ** The timer loop: [dispatch_heartbeats] *)

(** What the manager does besides a dispatch cycle's own steps. *)
Inductive manager_event :=
| dispatch_event (e : event)
| log_error_dispatching (e : exception_ptr)
| timer_arm (t : time_point).

Section timer_loop.
Context {C T : Type} `{!Consensus C} `{!ClientProtocol T}.
Variable vnode_default : vnode.

(** The manager with its gate [_bghbeats], its timer (the time it is
    armed for, if armed) and [_hbeat]. *)
Record manager_state := mk_manager_state {
  hm : heartbeat_manager (C := C) (T := T);
  bghbeats_closed : bool;
  heartbeat_timer : option time_point;
  hbeat : time_point }.

(** What a call of [dispatch_heartbeats] comes to: on a closed gate
    [with_gate] fails with [gate_closed_exception] and the cycle is not
    run; otherwise the cycle runs. *)
Inductive dispatched :=
| gate_was_closed
| cycle_ran (s : manager_state) (t : list manager_event).

(** [dispatch_heartbeats] with the gate entered and [_lock] free.  The
    cycle runs, then the [finally] block arms the timer for
    [next_heartbeat_timeout()], read at [now_end], unless the gate has
    been closed in the meantime ([closed_at_end] is what
    [_bghbeats.is_closed()] answers there), and [handle_exception] logs an
    exception that left the cycle.  [_hbeat] gets the reading
    [now_hbeat].  [None] is the undefined behaviour of the cycle. *)
Definition dispatch_heartbeats (s : manager_state)
    (now now_send now_end now_hbeat : time_point) (closed_at_end : bool)
  : option dispatched :=
  if bghbeats_closed s then Some gate_was_closed
  else
    match do_dispatch_heartbeats vnode_default (hm s) now now_send with
    | None => None
    | Some (m', t, c) =>
        Some (cycle_ran
                (mk_manager_state m' closed_at_end
                   (if closed_at_end then heartbeat_timer s
                    else Some (now_end + heartbeat_interval m')%Z)
                   now_hbeat)
                ((dispatch_event <$> t)
                   ++ (if closed_at_end then []
                       else [timer_arm (now_end + heartbeat_interval m')%Z])
                   ++ match c with
                      | completed => []
                      | threw e => [log_error_dispatching e]
                      end))
    end.

End timer_loop.

(** ** More readings of traces and batches *)

(** The shape of a planner trace: self beats with sequence number 0, log
    lines of skipped beats, and for each follower beat the sequence
    number taken, suppression switched on with it, and the beat queued
    with it for the follower's node. *)
Inductive planner_trace : list event → Prop :=
| planner_trace_nil : planner_trace []
| planner_trace_self n hb t :
    planner_trace t → planner_trace (pending_emplace n hb 0 :: t)
| planner_trace_skip v g lh ts t :
    planner_trace t → planner_trace (log_skipping_beat v g lh ts :: t)
| planner_trace_beat g v s hb t :
    hb_target_node_id hb = v →
    planner_trace t →
    planner_trace (call_next_follower_sequence g v s
                   :: call_update_suppress_heartbeats g v s true
                   :: pending_emplace (vnode_id v) hb s :: t).

(** The [follower_request_meta] that the planner stores for a queued
    beat. *)
Definition request_meta_of (x : heartbeat_metadata * Z)
  : follower_request_meta :=
  mk_follower_request_meta
    x.2 (prev_log_index (hb_meta x.1)) (hb_target_node_id x.1).

(** The first queued beat of group [g]. *)
Definition first_of_group (g : group_id)
    (l : list (heartbeat_metadata * Z)) : option (heartbeat_metadata * Z) :=
  head (filter (λ x, group (hb_meta x.1) = g) l).

(** What the success branch of the router does for one entry of a reply,
    told by the registry and the [meta_map]. *)
Definition success_entry_trace {C : Type} (reg : list (Z * C))
    (groups : gmap Z follower_request_meta) (n : node_id)
    (m : append_entries_reply) : list event :=
  match find_group (reply_group m) reg with
  | None => [log_could_not_find_consensus (reply_group m)]
  | Some _ =>
      match groups !! reply_group m with
      | Some fm =>
          [call_update_heartbeat_status (reply_group m) (follower_vnode fm) true;
           call_update_suppress_heartbeats
             (reply_group m) (follower_vnode fm) (seq fm) false;
           call_process_append_entries_reply
             (reply_group m) n (Ok m) (seq fm) (dirty_offset fm)]
      | None => []
      end
  end.

(** The state of group [g]'s instance after the entries of a reply, in
    order, have been routed with the [meta_map] entry [fm]: for each
    entry of the group the follower is marked as answering, suppression is
    switched off, and the entry is handed over. *)
Definition routed_state {C : Type} `{!Consensus C} (n : node_id)
    (fm : follower_request_meta) (g : group_id)
    (ms : list append_entries_reply) (c : C) : C :=
  foldl (λ c m,
           if decide (reply_group m = g) then
             process_append_entries_reply
               (update_suppress_heartbeats
                  (update_heartbeat_status c (follower_vnode fm) true)
                  (follower_vnode fm) (seq fm) false)
               n (Ok m) (seq fm) (dirty_offset fm)
           else c)
        c ms.

(** A [heartbeat] call as the client protocol receives it. *)
Record heartbeat_call := mk_heartbeat_call {
  hc_target : node_id;
  hc_request : list heartbeat_metadata;
  hc_deadline : time_point;
  hc_compression : compression_type;
  hc_min_compression_bytes : Z }.

(** The [heartbeat] calls of a trace. *)
Definition heartbeat_calls (t : list event) : list heartbeat_call :=
  omap (λ e, match e with
             | call_heartbeat n req d c b => Some (mk_heartbeat_call n req d c b)
             | _ => None
             end) t.

(** The call [do_heartbeat] makes for a batch. *)
Definition heartbeat_call_of (timeout_ : duration) (now : time_point)
    (r : node_heartbeat) : heartbeat_call :=
  mk_heartbeat_call (target r) (request r) (now + timeout_)%Z
    compression_zstd 512.

(** The calls that switch suppression off, in a trace: group, follower,
    sequence number. *)
Definition suppress_off_calls (t : list event) : list (Z * vnode * Z) :=
  omap (λ e, match e with
             | call_update_suppress_heartbeats g v s false => Some (g, v, s)
             | _ => None
             end) t.

(** Group, target vnode and sequence number of a queued beat. *)
Definition beat_key (x : heartbeat_metadata * Z) : Z * vnode * Z :=
  (group (hb_meta x.1), hb_target_node_id x.1, x.2).

(** ** More of the sample instance *)

(** A group that node 1 follows. *)
Definition sample_follower_group : sample_group :=
  mk_sample_group false (mk_vnode 1 0) (sample_meta 7)
    [mk_vnode 1 0; mk_vnode 2 0] [] 0 5 [] [] 0.

(** The leader of group 7 with a heartbeat to node 2 in flight: the
    follower is suppressed, sequence number 5 is taken, and the follower
    has failed before. *)
Definition sample_in_flight : sample_group :=
  mk_sample_group true (mk_vnode 1 0) (sample_meta 7)
    [mk_vnode 1 0; mk_vnode 2 0] [mk_vnode 2 0] 0 6 [mk_vnode 2 0] [] 0.

Definition sample_in_flight_registry : list (Z * sample_group) :=
  [(7%Z, sample_in_flight); (8%Z, sample_leader 8 [mk_vnode 2 0] 0)].

(** A manager with its gate open and its timer not armed. *)
Definition sample_manager_state (broken : list Z)
    (groups : list (Z * sample_group)) : manager_state :=
  mk_manager_state (sample_manager broken groups) false None 0.

(** Side conditions of [filter] on a trace whose head is a constructor. *)
Ltac event_side := cbn; first [exact I | intros []].

(** * Properties *)

(** ** Maps *)

Section map_facts.

Lemma emplaced_app (t1 t2 : list event) :
  emplaced (t1 ++ t2) = emplaced t1 ++ emplaced t2.
Proof.
  induction t1 as [|e t1 IH]; [done|].
  destruct e; simpl; rewrite ?IH; done.
Qed.

Lemma replay_app es1 es2 pb : replay (es1 ++ es2) pb = replay es2 (replay es1 pb).
Proof. unfold replay. apply foldl_app. Qed.

Lemma beats_for_cons_eq n x es : beats_for n ((n, x) :: es) = x :: beats_for n es.
Proof. unfold beats_for. rewrite filter_cons_True; done. Qed.

Lemma beats_for_cons_ne n n' x es :
  n' ≠ n → beats_for n ((n', x) :: es) = beats_for n es.
Proof. intros Hne. unfold beats_for. rewrite filter_cons_False; done. Qed.

Lemma emplace_back_lookup_eq n x (pb : gmap Z (list (heartbeat_metadata * Z))) :
  emplace_back n x pb !! n = Some (default [] (pb !! n) ++ [x]).
Proof. unfold emplace_back. apply lookup_insert_eq. Qed.

Lemma emplace_back_lookup_ne n n' x (pb : gmap Z (list (heartbeat_metadata * Z))) :
  n ≠ n' → emplace_back n x pb !! n' = pb !! n'.
Proof. intros Hne. unfold emplace_back. by apply lookup_insert_ne. Qed.

(** What a node's vector holds after a replay. *)
Lemma replay_lookup es (pb : gmap Z (list (heartbeat_metadata * Z))) n :
  replay es pb !! n =
    match beats_for n es with
    | [] => pb !! n
    | l => Some (default [] (pb !! n) ++ l)
    end.
Proof.
  revert pb. induction es as [|[n' x] es IH]; intros pb; [done|].
  change (replay ((n', x) :: es) pb) with (replay es (emplace_back n' x pb)).
  rewrite IH. destruct (decide (n' = n)) as [->|Hne].
  - rewrite beats_for_cons_eq, emplace_back_lookup_eq. simpl.
    destruct (beats_for n es); simpl; by rewrite <- ?app_assoc.
  - rewrite beats_for_cons_ne, emplace_back_lookup_ne by done. done.
Qed.

Lemma replay_empty_lookup es n l :
  replay es ∅ !! n = Some l ↔ beats_for n es = l ∧ l ≠ [].
Proof.
  rewrite replay_lookup, lookup_empty. simpl.
  destruct (beats_for n es) as [|x l'] eqn:E; split.
  - done.
  - intros [<- ?]; done.
  - intros [= <-]; done.
  - intros [<- _]; done.
Qed.

Lemma emplace_dom k v (m : gmap Z follower_request_meta) :
  dom (emplace k v m) = {[k]} ∪ dom m.
Proof.
  unfold emplace. destruct (m !! k) eqn:E.
  - apply elem_of_dom_2 in E. set_solver.
  - apply dom_insert_L.
Qed.

Lemma build_meta_map_dom_gen (l : list (heartbeat_metadata * Z))
    (m : gmap Z follower_request_meta) :
  dom (foldl (λ m '(hb, s),
                emplace (group (hb_meta hb))
                  (mk_follower_request_meta
                     s (prev_log_index (hb_meta hb)) (hb_target_node_id hb)) m)
             m l)
  = dom m ∪ list_to_set (request_groups l.*1).
Proof.
  revert m. induction l as [|[hb s] l IH]; intros m; simpl.
  - set_solver.
  - rewrite IH, emplace_dom. set_solver.
Qed.

Lemma build_meta_map_dom (l : list (heartbeat_metadata * Z)) :
  dom (build_meta_map l) = list_to_set (request_groups l.*1).
Proof.
  unfold build_meta_map. rewrite build_meta_map_dom_gen. set_solver.
Qed.

(** A key of a map is stored exactly once. *)
Lemma entries_of_lookup g fm (m : gmap Z follower_request_meta) :
  m !! g = Some fm → entries_of g m = [(g, fm)].
Proof.
  intros Hg. unfold entries_of.
  assert (Hp : map_to_list m ≡ₚ (g, fm) :: map_to_list (delete g m)).
  { rewrite <- map_to_list_insert by apply lookup_delete_eq.
    by rewrite insert_delete_id. }
  apply Permutation_singleton_r. rewrite Hp.
  rewrite filter_cons_True by done.
  assert (Hnil : filter (λ p : Z * follower_request_meta, p.1 = g)
                   (map_to_list (delete g m)) = []).
  { destruct (filter _ (map_to_list (delete g m))) as [|[k v] l] eqn:E; [done|].
    assert (Hin : (k, v) ∈ filter (λ p : Z * follower_request_meta, p.1 = g)
                    (map_to_list (delete g m))) by (rewrite E; left).
    apply list_elem_of_filter in Hin as [Hk Hin]. simpl in Hk. subst k.
    apply elem_of_map_to_list in Hin. by rewrite lookup_delete_eq in Hin. }
  by rewrite Hnil.
Qed.

End map_facts.

(** ** The planner *)

Section planner_facts.
Context {C : Type} `{!Consensus C}.
Variable vnode_default : vnode.

Local Abbreviation visit := (maybe_create_follower_request vnode_default).
Local Arguments maybe_create_follower_request : simpl never.

(** The two loops, one step at a time. *)
Lemma for_each_broker_id_cons
    (f : vnode → C * planner → (C * planner) * list event) v vs st :
  for_each_broker_id f (v :: vs) st
  = ((for_each_broker_id f vs (f v st).1).1,
     (f v st).2 ++ (for_each_broker_id f vs (f v st).1).2).
Proof.
  cbn [for_each_broker_id]. destruct (f v st) as [st1 t1]. cbn [fst snd].
  by destruct (for_each_broker_id f vs st1).
Qed.

Lemma for_each_broker_id_app
    (f : vnode → C * planner → (C * planner) * list event) vs1 vs2 st :
  for_each_broker_id f (vs1 ++ vs2) st
  = ((for_each_broker_id f vs2 (for_each_broker_id f vs1 st).1).1,
     (for_each_broker_id f vs1 st).2
       ++ (for_each_broker_id f vs2 (for_each_broker_id f vs1 st).1).2).
Proof.
  revert st. induction vs1 as [|v vs1 IH]; intros st.
  - cbn [app for_each_broker_id fst snd].
    by destruct (for_each_broker_id f vs2 st).
  - rewrite <- app_comm_cons, !for_each_broker_id_cons, IH.
    cbn [fst snd]. by rewrite app_assoc.
Qed.

Lemma plan_groups_cons lh g (ptr : C) c pl :
  plan_groups vnode_default lh ((g, ptr) :: c) pl
  = if is_leader ptr then
      let r1 := for_each_broker_id (visit g lh) (config ptr) (ptr, pl) in
      let r2 := plan_groups vnode_default lh c r1.1.2 in
      ((g, r1.1.1) :: r2.1.1, r2.1.2, r1.2 ++ r2.2)
    else
      let r2 := plan_groups vnode_default lh c pl in
      ((g, ptr) :: r2.1.1, r2.1.2, r2.2).
Proof.
  cbn [plan_groups]. destruct (is_leader ptr); cbn [negb].
  - destruct (for_each_broker_id _ _ _) as [[ptr' pl1] t1]. cbn [fst snd].
    by destruct (plan_groups vnode_default lh c pl1) as [[c' pl2] t2].
  - by destruct (plan_groups vnode_default lh c pl) as [[c' pl'] t].
Qed.

Lemma plan_groups_app lh (c1 c2 : list (Z * C)) pl :
  plan_groups vnode_default lh (c1 ++ c2) pl
  = ((plan_groups vnode_default lh c1 pl).1.1
       ++ (plan_groups vnode_default lh c2
             (plan_groups vnode_default lh c1 pl).1.2).1.1,
     (plan_groups vnode_default lh c2
        (plan_groups vnode_default lh c1 pl).1.2).1.2,
     (plan_groups vnode_default lh c1 pl).2
       ++ (plan_groups vnode_default lh c2
             (plan_groups vnode_default lh c1 pl).1.2).2).
Proof.
  revert pl. induction c1 as [|[g ptr] c1 IH]; intros pl.
  - cbn [app plan_groups fst snd].
    by destruct (plan_groups vnode_default lh c2 pl) as [[??]?].
  - rewrite <- app_comm_cons, !plan_groups_cons.
    destruct (is_leader ptr); cbn [fst snd]; rewrite IH; cbn [fst snd].
    + by rewrite app_assoc.
    + done.
Qed.

(** The planner's [pending_beats] is what its recorded [emplace_back]s
    build: one visit, one group, the whole registry. *)
Lemma visit_pending g lh rni (ptr : C) pl :
  pending_beats (visit g lh rni (ptr, pl)).1.2
  = replay (emplaced (visit g lh rni (ptr, pl)).2) (pending_beats pl).
Proof.
  unfold maybe_create_follower_request.
  destruct (decide (rni = self ptr)); [done|].
  destruct (are_heartbeats_suppressed ptr rni); [done|].
  destruct (_ <? _)%Z; [done|].
  destruct (next_follower_sequence ptr rni) as [s p1]. done.
Qed.

Lemma for_each_pending g lh vs (st : C * planner) :
  pending_beats (for_each_broker_id (visit g lh) vs st).1.2
  = replay (emplaced (for_each_broker_id (visit g lh) vs st).2)
      (pending_beats st.2).
Proof.
  revert st. induction vs as [|v vs IH]; intros [ptr pl]; [done|].
  rewrite for_each_broker_id_cons. cbn [fst snd].
  rewrite emplaced_app, replay_app, <- visit_pending, IH.
  by destruct (visit g lh v (ptr, pl)) as [[??]?].
Qed.

Lemma plan_groups_pending lh (c : list (Z * C)) pl :
  pending_beats (plan_groups vnode_default lh c pl).1.2
  = replay (emplaced (plan_groups vnode_default lh c pl).2) (pending_beats pl).
Proof.
  revert pl. induction c as [|[g ptr] c IH]; intros pl; [done|].
  rewrite plan_groups_cons. destruct (is_leader ptr); cbn [fst snd].
  - rewrite emplaced_app, replay_app, IH.
    by rewrite (for_each_pending g lh (config ptr) (ptr, pl)).
  - apply IH.
Qed.

(** The batches of a run are built from the vectors that replaying the
    trace from the empty map gives. *)
Lemma requests_for_range_requests (c : list (Z * C)) interval now :
  requests (reqs (requests_for_range vnode_default c interval now))
  = build_node_heartbeat
      <$> map_to_list
            (replay (emplaced
                       (plan_trace (requests_for_range vnode_default c interval now)))
                    ∅).
Proof.
  unfold requests_for_range. destruct c as [|h c]; [done|].
  pose proof (plan_groups_pending (now - interval)%Z (h :: c) (mk_planner ∅ ∅)) as Hp.
  destruct (plan_groups vnode_default (now - interval)%Z (h :: c) (mk_planner ∅ ∅))
    as [[c' pl] t].
  simpl in *. by rewrite Hp.
Qed.

(** Every batch comes from one non-empty vector of [pending_beats]. *)
Lemma requests_for_range_batch (c : list (Z * C)) interval now b :
  b ∈ requests (reqs (requests_for_range vnode_default c interval now)) →
  ∃ l, b = build_node_heartbeat (target b, l) ∧ l ≠ [] ∧
       l = beats_for (target b)
             (emplaced (plan_trace (requests_for_range vnode_default c interval now))).
Proof.
  rewrite requests_for_range_requests.
  intros ([n l] & -> & Hin)%list_elem_of_fmap.
  apply elem_of_map_to_list, replay_empty_lookup in Hin as [Hl Hne].
  exists l. simpl. done.
Qed.

(** C7: one run of the planner produces at most one batch per target
    node; every beat put on a node's pending vector is in the batch of
    that node; and the request of a batch lists the beats recorded for
    its target, in the order in which they were put on the vector. *)
Theorem one_batch_per_node (c : list (Z * C)) interval now :
  let p := requests_for_range vnode_default c interval now in
  NoDup (target <$> requests (reqs p))
  ∧ (∀ n hb s, (n, (hb, s)) ∈ emplaced (plan_trace p) →
       ∃ b, b ∈ requests (reqs p) ∧ target b = n ∧ hb ∈ request b)
  ∧ (∀ b, b ∈ requests (reqs p) →
       request b = (beats_for (target b) (emplaced (plan_trace p))).*1
       ∧ request b ≠ []).
Proof.
  intros p. split; [|split].
  - unfold p. rewrite requests_for_range_requests, <- list_fmap_compose.
    apply (NoDup_fst_map_to_list
             (replay (emplaced (plan_trace
                (requests_for_range vnode_default c interval now))) ∅)).
  - intros n hb s Hin.
    set (l := beats_for n (emplaced (plan_trace p))).
    assert (Hl : (hb, s) ∈ l).
    { unfold l, beats_for. apply list_elem_of_fmap. exists (n, (hb, s)).
      split; [done|]. by apply list_elem_of_filter. }
    assert (Hne : l ≠ []) by (intros E; rewrite E in Hl; by apply elem_of_nil in Hl).
    exists (build_node_heartbeat (n, l)). split; [|split].
    + unfold p. rewrite requests_for_range_requests.
      apply list_elem_of_fmap. exists (n, l). split; [done|].
      by apply elem_of_map_to_list, replay_empty_lookup.
    + done.
    + simpl. apply list_elem_of_fmap. by exists (hb, s).
  - unfold p. intros b Hb.
    apply requests_for_range_batch in Hb as (l & Hb & Hne & Hl).
    rewrite <- Hl, Hb. simpl. split; [done|].
    by destruct l.
Qed.

(** C1: in every batch of a run the groups of the request are exactly the
    keys of the [meta_map], and each of them is stored there once. *)
Theorem meta_map_matches_request (c : list (Z * C)) interval now b :
  b ∈ requests (reqs (requests_for_range vnode_default c interval now)) →
  dom (meta_map b) = list_to_set (request_groups (request b))
  ∧ ∀ g, g ∈ request_groups (request b) →
      ∃ fm, entries_of g (meta_map b) = [(g, fm)].
Proof.
  intros (l & -> & _)%requests_for_range_batch. simpl.
  pose proof (build_meta_map_dom l) as Hdom. split; [done|].
  intros g Hg.
  assert (Hin : g ∈ dom (build_meta_map l)) by (rewrite Hdom; set_solver).
  apply elem_of_dom in Hin as [fm Hfm]. exists fm.
  by apply entries_of_lookup.
Qed.

(** C3: the visit of the leader's own vnode puts a beat with sequence
    number 0 on the vector of the leader's node, whatever the suppression
    flag and the last append time are, and makes no call on the instance;
    so a leader whose only voter is itself gets exactly that batch from
    every run of the planner. *)
Theorem self_beat_unconditional g (ptr : C) :
  (∀ lh pl,
     visit g lh (self ptr) (ptr, pl)
     = ((ptr,
         mk_planner
           (emplace_back (vnode_id (self ptr)) (self_beat vnode_default ptr, 0%Z) (pending_beats pl))
           (reconnect_nodes pl)),
        [pending_emplace (vnode_id (self ptr)) (self_beat vnode_default ptr) 0%Z]))
  ∧ (is_leader ptr = true → config ptr = [self ptr] →
     ∀ interval now,
       requests_for_range vnode_default [(g, ptr)] interval now
       = mk_planned
           (mk_heartbeat_requests
              [mk_node_heartbeat (vnode_id (self ptr)) [self_beat vnode_default ptr]
                 {[group (meta ptr) :=
                     mk_follower_request_meta
                       0%Z (prev_log_index (meta ptr)) vnode_default]}]
              ∅)
           [(g, ptr)]
           [pending_emplace (vnode_id (self ptr)) (self_beat vnode_default ptr) 0%Z]).
Proof.
  assert (Hself : ∀ lh pl,
     visit g lh (self ptr) (ptr, pl)
     = ((ptr,
         mk_planner
           (emplace_back (vnode_id (self ptr)) (self_beat vnode_default ptr, 0%Z) (pending_beats pl))
           (reconnect_nodes pl)),
        [pending_emplace (vnode_id (self ptr)) (self_beat vnode_default ptr) 0%Z])).
  { intros lh pl. unfold maybe_create_follower_request.
    destruct (decide (self ptr = self ptr)); [done|congruence]. }
  split; [exact Hself|].
  intros Hlead Hcfg interval now.
  unfold requests_for_range. rewrite plan_groups_cons, Hlead, Hcfg.
  rewrite for_each_broker_id_cons, Hself.
  cbn [for_each_broker_id plan_groups fst snd pending_beats reconnect_nodes app].
  unfold emplace_back. rewrite lookup_empty, insert_empty, map_to_list_singleton.
  cbn [fmap list_fmap default app].
  unfold build_node_heartbeat, build_meta_map, emplace. cbn [foldl fst snd].
  rewrite lookup_empty, insert_empty. done.
Qed.

(** C2: the visit of a vnode that is not the leader's own, is not
    suppressed and was appended to after [now - interval] leaves the
    instance and both containers as they were and only writes the trace
    log line: no sequence number is taken, suppression is not switched
    on, nothing is put on a pending vector.  So the loop over the group's
    configuration, and with it the whole run of the planner, goes on from
    the state it had before that vnode: the run's containers, from which
    the requests are built, are those of the other visits alone. *)
Theorem piggyback_elision g now interval rni (ptr : C) pl :
  rni ≠ self ptr →
  are_heartbeats_suppressed ptr rni = false →
  (now - interval < last_append_timestamp ptr rni)%Z →
  let lh := (now - interval)%Z in
  let skip := log_skipping_beat rni g lh (last_append_timestamp ptr rni) in
  visit g lh rni (ptr, pl) = ((ptr, pl), [skip])
  ∧ (∀ vs1 vs2 st0,
       (for_each_broker_id (visit g lh) vs1 st0).1 = (ptr, pl) →
       for_each_broker_id (visit g lh) (vs1 ++ rni :: vs2) st0
       = ((for_each_broker_id (visit g lh) vs2 (ptr, pl)).1,
          (for_each_broker_id (visit g lh) vs1 st0).2
            ++ skip :: (for_each_broker_id (visit g lh) vs2 (ptr, pl)).2))
  ∧ (∀ c1 c2 ptr0 vs1 vs2 pl0,
       is_leader ptr0 = true →
       config ptr0 = vs1 ++ rni :: vs2 →
       (for_each_broker_id (visit g lh) vs1
          (ptr0, (plan_groups vnode_default lh c1 pl0).1.2)).1 = (ptr, pl) →
       let r1 := plan_groups vnode_default lh c1 pl0 in
       let ta := (for_each_broker_id (visit g lh) vs1 (ptr0, r1.1.2)).2 in
       let rb := for_each_broker_id (visit g lh) vs2 (ptr, pl) in
       let r2 := plan_groups vnode_default lh c2 rb.1.2 in
       plan_groups vnode_default lh (c1 ++ (g, ptr0) :: c2) pl0
       = (r1.1.1 ++ (g, rb.1.1) :: r2.1.1,
          r2.1.2,
          r1.2 ++ (ta ++ skip :: rb.2) ++ r2.2)).
Proof.
  intros Hne Hsup Hts lh skip.
  assert (Hv : visit g lh rni (ptr, pl) = ((ptr, pl), [skip])).
  { unfold maybe_create_follower_request.
    destruct (decide (rni = self ptr)); [done|]. rewrite Hsup.
    apply Z.ltb_lt in Hts. fold lh in Hts. by rewrite Hts. }
  assert (Hgroup : ∀ vs1 vs2 st0,
       (for_each_broker_id (visit g lh) vs1 st0).1 = (ptr, pl) →
       for_each_broker_id (visit g lh) (vs1 ++ rni :: vs2) st0
       = ((for_each_broker_id (visit g lh) vs2 (ptr, pl)).1,
          (for_each_broker_id (visit g lh) vs1 st0).2
            ++ skip :: (for_each_broker_id (visit g lh) vs2 (ptr, pl)).2)).
  { intros vs1 vs2 st0 Hst.
    by rewrite for_each_broker_id_app, for_each_broker_id_cons, Hst, Hv. }
  split; [exact Hv|]. split; [exact Hgroup|].
  intros c1 c2 ptr0 vs1 vs2 pl0 Hlead Hcfg Hst. cbv zeta.
  rewrite plan_groups_app, plan_groups_cons, Hlead, Hcfg.
  cbv zeta. rewrite (Hgroup vs1 vs2 _ Hst). cbn [fst snd]. done.
Qed.

(** C8: the visit of a vnode that is not the leader's own, is not
    suppressed and is not elided first takes the sequence number, then
    switches suppression on with that number, then puts the beat built
    from the instance as it is after these two calls, paired with that
    number, at the end of the vector that [pending_beats] holds for the
    vnode's node (the empty vector if it held none), leaving the vectors
    of the other nodes alone; the node joins the reconnect set exactly
    when [should_reconnect_follower] answers true. *)
Theorem follower_request_order g lh rni (ptr : C) pl :
  rni ≠ self ptr →
  are_heartbeats_suppressed ptr rni = false →
  (last_append_timestamp ptr rni ≤ lh)%Z →
  let seq_id := (next_follower_sequence ptr rni).1 in
  let p1 := (next_follower_sequence ptr rni).2 in
  let p2 := update_suppress_heartbeats p1 rni seq_id true in
  let hb := mk_heartbeat_metadata (meta p2) (self p2) rni in
  maybe_create_follower_request vnode_default g lh rni (ptr, pl)
  = ((p2,
      mk_planner
        (<[vnode_id rni :=
             default [] (pending_beats pl !! vnode_id rni) ++ [(hb, seq_id)]]>
           (pending_beats pl))
        (if should_reconnect_follower p2 rni
         then {[vnode_id rni]} ∪ reconnect_nodes pl
         else reconnect_nodes pl)),
     [call_next_follower_sequence g rni seq_id;
      call_update_suppress_heartbeats g rni seq_id true;
      pending_emplace (vnode_id rni) hb seq_id]).
Proof.
  intros Hne Hsup Hts. cbv zeta. unfold maybe_create_follower_request.
  destruct (decide (rni = self ptr)); [done|]. rewrite Hsup.
  apply Z.ltb_ge in Hts. rewrite Hts.
  by destruct (next_follower_sequence ptr rni) as [s c1].
Qed.

End planner_facts.

(** ** The reply router *)

Section reply_router_facts.
Context {C : Type} `{!Consensus C}.

(** Calls through a handle leave the registry's set of groups alone. *)
Lemma find_group_update_eq g (f : C → C) reg :
  find_group g (update_group g f reg) = f <$> find_group g reg.
Proof.
  induction reg as [|[g' c] reg IH]; [done|]. simpl.
  destruct (decide (g' = g)) as [->|Hne]; simpl.
  - by rewrite decide_True.
  - by rewrite decide_False.
Qed.

Lemma find_group_update_ne g g' (f : C → C) reg :
  g ≠ g' → find_group g' (update_group g f reg) = find_group g' reg.
Proof.
  intros Hne. induction reg as [|[k c] reg IH]; [done|]. simpl.
  destruct (decide (k = g)) as [->|Hk]; simpl.
  - by rewrite !decide_False.
  - destruct (decide (k = g')); [done|]. apply IH.
Qed.

Lemma find_group_update_is_Some g g' (f : C → C) reg :
  is_Some (find_group g' (update_group g f reg)) ↔ is_Some (find_group g' reg).
Proof.
  destruct (decide (g = g')) as [->|Hne].
  - rewrite find_group_update_eq. apply fmap_is_Some.
  - by rewrite find_group_update_ne.
Qed.

Lemma error_pair_trace_update g (f : C → C) reg n e p :
  error_pair_trace (update_group g f reg) n e p = error_pair_trace reg n e p.
Proof.
  unfold error_pair_trace.
  pose proof (find_group_update_is_Some g p.1 f reg) as Hs.
  destruct (find_group p.1 (update_group g f reg)) as [c1|] eqn:E1;
    destruct (find_group p.1 reg) as [c2|] eqn:E2; try done.
  - destruct Hs as [Hs _]. by destruct Hs.
  - destruct Hs as [_ Hs]. by destruct Hs.
Qed.

(** The trace of the error loop, entry by entry. *)
Lemma process_reply_error_trace n e gs (reg : list (Z * C)) :
  (process_reply_error n e gs reg).2 = concat (error_pair_trace reg n e <$> gs).
Proof.
  revert reg. induction gs as [|[g fm] gs IH]; intros reg; [done|].
  cbn [process_reply_error fmap list_fmap concat].
  unfold error_pair_trace at 1. cbn [fst snd].
  destruct (find_group g reg) as [c|] eqn:E.
  - specialize (IH (update_group g (route_error n e fm) reg)).
    destruct (process_reply_error n e gs _) as [reg' t]. cbn [snd] in *.
    rewrite IH. f_equal. f_equal. apply list_fmap_ext.
    intros ? p _. apply error_pair_trace_update.
  - specialize (IH reg).
    destruct (process_reply_error n e gs reg) as [reg' t]. cbn [snd] in *.
    by rewrite IH.
Qed.

(** The registry after the error loop. *)
Lemma process_reply_error_registry n e gs (reg : list (Z * C)) g :
  NoDup gs.*1 →
  find_group g (process_reply_error n e gs reg).1
  = match (list_to_map gs : gmap Z follower_request_meta) !! g with
    | Some fm => route_error n e fm <$> find_group g reg
    | None => find_group g reg
    end.
Proof.
  revert reg. induction gs as [|[g0 fm0] gs IH]; intros reg Hnd; [done|].
  apply NoDup_cons in Hnd as [Hnotin Hnd].
  cbn [process_reply_error list_to_map foldr fst snd].
  assert (Hrest : g = g0 → (list_to_map gs : gmap Z follower_request_meta) !! g = None).
  { intros ->. by apply not_elem_of_list_to_map_1. }
  destruct (find_group g0 reg) as [c|] eqn:E.
  - specialize (IH (update_group g0 (route_error n e fm0) reg) Hnd).
    destruct (process_reply_error n e gs _) as [reg' t]. cbn [fst] in *.
    rewrite IH. destruct (decide (g = g0)) as [->|Hne].
    + rewrite lookup_insert_eq, Hrest by done. apply find_group_update_eq.
    + rewrite lookup_insert_ne by done. by rewrite find_group_update_ne.
  - specialize (IH reg Hnd).
    destruct (process_reply_error n e gs reg) as [reg' t]. cbn [fst] in *.
    rewrite IH. destruct (decide (g = g0)) as [->|Hne].
    + rewrite lookup_insert_eq, Hrest by done. by rewrite E.
    + by rewrite lookup_insert_ne.
Qed.

(** C4: on a transport error the router, after its trace log line, goes
    through the entries of the [meta_map]; an entry whose group the
    registry lacks gives the error log line and nothing else; any other
    entry gives the four calls [update_heartbeat_status(follower, false)],
    [update_suppress_heartbeats(follower, seq, no)],
    [process_append_entries_reply(n, error, seq, dirty_offset)] and the
    probe's [heartbeat_request_error], on that group's instance only. *)
Theorem transport_error_routing n e (groups : gmap Z follower_request_meta)
    (reg : list (Z * C)) :
  ∃ reg',
    process_reply n groups (Err e) reg
    = Some (reg',
            log_could_not_send n e
              :: concat (error_pair_trace reg n e <$> map_to_list groups))
    ∧ (∀ g fm, groups !! g = Some fm →
         (find_group g reg = None →
            error_pair_trace reg n e (g, fm) = [log_cannot_find_consensus_group g])
         ∧ (is_Some (find_group g reg) →
              error_pair_trace reg n e (g, fm)
              = [call_update_heartbeat_status g (follower_vnode fm) false;
                 call_update_suppress_heartbeats g (follower_vnode fm) (seq fm) false;
                 call_process_append_entries_reply
                   g n (Err e) (seq fm) (dirty_offset fm);
                 call_heartbeat_request_error g]))
    ∧ (∀ g, find_group g reg'
            = match groups !! g with
              | Some fm =>
                  (λ c, heartbeat_request_error
                          (process_append_entries_reply
                             (update_suppress_heartbeats
                                (update_heartbeat_status c (follower_vnode fm) false)
                                (follower_vnode fm) (seq fm) false)
                             n (Err e) (seq fm) (dirty_offset fm)))
                    <$> find_group g reg
              | None => find_group g reg
              end).
Proof.
  unfold process_reply.
  pose proof (process_reply_error_trace n e (map_to_list groups) reg) as Ht.
  pose proof (λ g, process_reply_error_registry n e (map_to_list groups) reg g
                     (NoDup_fst_map_to_list groups)) as Hr.
  destruct (process_reply_error n e (map_to_list groups) reg) as [reg' t].
  cbn [fst snd] in *. exists reg'. split; [by rewrite Ht|]. split.
  - intros g fm _. unfold error_pair_trace. cbn [fst snd]. split.
    + by intros ->.
    + by intros [c ->].
  - intros g. rewrite Hr, list_to_map_to_list.
    destruct (groups !! g) as [fm|]; [|done].
    by destruct (find_group g reg).
Qed.

(** When the success loop has no defined result. *)
Lemma process_reply_success_None n (groups : gmap Z follower_request_meta)
    ms (reg : list (Z * C)) :
  process_reply_success n groups ms reg = None
  ↔ ∃ m, m ∈ ms ∧ is_Some (find_group (reply_group m) reg)
         ∧ groups !! reply_group m = None.
Proof.
  revert reg. induction ms as [|m ms IH]; intros reg.
  - split; [done|]. intros (m & Hm & _). by apply elem_of_nil in Hm.
  - cbn [process_reply_success].
    destruct (find_group (reply_group m) reg) as [c|] eqn:E.
    + destruct (groups !! reply_group m) as [fm|] eqn:G.
      * specialize (IH (update_group (reply_group m) (route_success n m fm) reg)).
        destruct (process_reply_success n groups ms _) as [[reg' t]|].
        -- split; [done|]. intros (m' & Hm' & Hs & Hg).
           apply elem_of_cons in Hm' as [->|Hm']; [congruence|].
           assert (Some (reg', t) = None) as Hn; [|done].
           apply IH. exists m'. split; [done|]. split; [|done].
           by apply find_group_update_is_Some.
        -- split; [|done]. intros _.
           destruct IH as [IH _]. destruct (IH eq_refl) as (m' & Hm' & Hs & Hg).
           exists m'. split; [by right|]. split; [|done].
           by apply find_group_update_is_Some in Hs.
      * split; [|done]. intros _. exists m. split; [left|]. by rewrite E.
    + specialize (IH reg).
      destruct (process_reply_success n groups ms reg) as [[reg' t]|].
      * split; [done|]. intros (m' & Hm' & Hs & Hg).
        apply elem_of_cons in Hm' as [->|Hm'].
        -- rewrite E in Hs. by destruct Hs.
        -- assert (Some (reg', t) = None) as Hn; [|done].
           apply IH. by exists m'.
      * split; [|done]. intros _.
        destruct IH as [IH _]. destruct (IH eq_refl) as (m' & Hm' & Hs & Hg).
        exists m'. split; [by right|]. done.
Qed.

(** C10: the success path of the router has a defined result whenever
    every entry of the reply names a key of the [meta_map]; and it has
    none as soon as one entry names a group that the registry has and the
    [meta_map] lacks, the lookup in the [meta_map] being unchecked. *)
Theorem success_path_needs_meta n (groups : gmap Z follower_request_meta)
    (reply : list append_entries_reply) (reg : list (Z * C)) :
  ((∀ m, m ∈ reply → is_Some (groups !! reply_group m)) →
   is_Some (process_reply n groups (Ok reply) reg))
  ∧ (∀ m, m ∈ reply →
       is_Some (find_group (reply_group m) reg) →
       groups !! reply_group m = None →
       process_reply n groups (Ok reply) reg = None).
Proof.
  cbn [process_reply]. split.
  - intros Hall.
    destruct (process_reply_success n groups reply reg) as [r|] eqn:E; [by eexists|].
    apply process_reply_success_None in E as (m & Hm & _ & Hg).
    destruct (Hall m Hm) as [fm Hfm]. congruence.
  - intros m Hm Hs Hg. apply process_reply_success_None. by exists m.
Qed.

End reply_router_facts.

(** ** The dispatcher *)

Section dispatcher_facts.
Context {C T : Type} `{!Consensus C} `{!ClientProtocol T}.
Variable vnode_default : vnode.

Local Arguments maybe_create_follower_request : simpl never.

(** The planner talks to no client protocol. *)
Lemma visit_no_transport g lh rni (st : C * planner) :
  filter is_transport_call
    (maybe_create_follower_request vnode_default g lh rni st).2 = [].
Proof.
  destruct st as [ptr pl]. unfold maybe_create_follower_request.
  destruct (decide (rni = self ptr)); [done|].
  destruct (are_heartbeats_suppressed ptr rni); [done|].
  destruct (_ <? _)%Z; [done|].
  by destruct (next_follower_sequence ptr rni) as [s p1].
Qed.

Lemma for_each_no_transport g lh vs (st : C * planner) :
  filter is_transport_call
    (for_each_broker_id (maybe_create_follower_request vnode_default g lh) vs st).2
  = [].
Proof.
  revert st. induction vs as [|v vs IH]; intros st; [done|].
  rewrite for_each_broker_id_cons. cbn [snd].
  by rewrite filter_app, visit_no_transport, IH.
Qed.

Lemma plan_groups_no_transport lh (c : list (Z * C)) pl :
  filter is_transport_call (plan_groups vnode_default lh c pl).2 = [].
Proof.
  revert pl. induction c as [|[g ptr] c IH]; intros pl; [done|].
  rewrite plan_groups_cons. destruct (is_leader ptr); cbn [snd].
  - by rewrite filter_app, for_each_no_transport, IH.
  - apply IH.
Qed.

Lemma plan_trace_no_transport (c : list (Z * C)) interval now :
  filter is_transport_call
    (plan_trace (requests_for_range vnode_default c interval now)) = [].
Proof.
  unfold requests_for_range. destruct c as [|h c]; [done|].
  pose proof (plan_groups_no_transport (now - interval)%Z (h :: c) (mk_planner ∅ ∅)) as Hp.
  by destruct (plan_groups vnode_default (now - interval)%Z (h :: c) (mk_planner ∅ ∅))
    as [[c' pl] t].
Qed.

(** Neither does the router. *)
Lemma process_reply_success_no_transport n groups ms (reg : list (Z * C)) reg' t :
  process_reply_success n groups ms reg = Some (reg', t) →
  filter is_transport_call t = [].
Proof.
  revert reg reg' t. induction ms as [|m ms IH]; intros reg reg' t.
  - by intros [= <- <-].
  - cbn [process_reply_success].
    destruct (find_group (reply_group m) reg).
    + destruct (groups !! reply_group m) as [fm|]; [|done].
      destruct (process_reply_success n groups ms _) as [[reg1 t1]|] eqn:E; [|done].
      intros [= <- <-]. unfold route_success_trace. cbn [app].
      rewrite !filter_cons_False by event_side. by apply (IH _ _ _ E).
    + destruct (process_reply_success n groups ms reg) as [[reg1 t1]|] eqn:E; [|done].
      intros [= <- <-]. rewrite filter_cons_False by event_side. by apply (IH _ _ _ E).
Qed.

Lemma transport_call_split (t : list event) :
  filter is_transport_call t = [] →
  filter is_heartbeat_call t = [] ∧ filter is_ensure_disconnect t = [].
Proof.
  induction t as [|e t IH]; [done|].
  destruct e; rewrite ?filter_cons_True by event_side; try done;
    rewrite !(filter_cons_False _ _ t) by event_side; exact IH.
Qed.

(** A batch the planner made is covered by its own [meta_map]. *)
Lemma planned_batch_covered (c : list (Z * C)) interval now b :
  b ∈ requests (reqs (requests_for_range vnode_default c interval now)) →
  covered b.
Proof.
  intros (l & Hb & _)%requests_for_range_batch hb Hhb.
  rewrite Hb in Hhb |- *. cbn [build_node_heartbeat meta_map request snd] in *.
  apply elem_of_dom. rewrite build_meta_map_dom. apply elem_of_list_to_set.
  unfold request_groups. apply list_elem_of_fmap. by exists hb.
Qed.

(** The reply built for a batch addressed to the manager's own node. *)
Lemma self_reply_shape (hbs : list heartbeat_metadata) :
  Forall2 (λ hb m, reply_result m = success
                   ∧ reply_node_id m = hb_target_node_id hb
                   ∧ reply_target_node_id m = hb_target_node_id hb
                   ∧ reply_group m = group (hb_meta hb))
          hbs (self_reply hbs).
Proof. induction hbs as [|hb hbs IH]; constructor; done. Qed.

Lemma do_self_heartbeat_defined (r : node_heartbeat) (reg : list (Z * C)) :
  covered r → is_Some (do_self_heartbeat r reg).
Proof.
  intros Hc. unfold do_self_heartbeat.
  destruct (process_reply _ _ _ _) as [x|] eqn:E; [by eexists|].
  apply process_reply_success_None in E as (m & Hm & _ & Hg).
  apply list_elem_of_fmap in Hm as (hb & -> & Hhb).
  destruct (Hc hb Hhb) as [fm Hfm]. cbn [reply_group] in Hg. congruence.
Qed.

(** The loop of [send_heartbeats], one batch at a time. *)
Lemma send_heartbeats_self self_ timeout_ now r rs (reg : list (Z * C)) :
  target r = self_ →
  send_heartbeats self_ timeout_ now (r :: rs) reg
  = match process_reply (target r) (meta_map r) (Ok (self_reply (request r))) reg with
    | Some (reg1, t1) =>
        match send_heartbeats self_ timeout_ now rs reg1 with
        | Some (reg2, t2) => Some (reg2, t1 ++ t2)
        | None => None
        end
    | None => None
    end.
Proof.
  intros Ht. cbn [send_heartbeats]. by rewrite decide_True.
Qed.

Lemma send_heartbeats_app self_ timeout_ now rs1 rs2 (reg : list (Z * C)) :
  send_heartbeats self_ timeout_ now (rs1 ++ rs2) reg
  = match send_heartbeats self_ timeout_ now rs1 reg with
    | Some (reg1, t1) =>
        match send_heartbeats self_ timeout_ now rs2 reg1 with
        | Some (reg2, t2) => Some (reg2, t1 ++ t2)
        | None => None
        end
    | None => None
    end.
Proof.
  revert reg. induction rs1 as [|r rs1 IH]; intros reg.
  - cbn [app send_heartbeats].
    by destruct (send_heartbeats self_ timeout_ now rs2 reg) as [[??]|].
  - rewrite <- app_comm_cons. cbn [send_heartbeats].
    destruct (decide (target r = self_)).
    + destruct (do_self_heartbeat r reg) as [[reg1 t1]|]; [|done].
      rewrite IH.
      destruct (send_heartbeats self_ timeout_ now rs1 reg1) as [[reg2 t2]|]; [|done].
      destruct (send_heartbeats self_ timeout_ now rs2 reg2) as [[reg3 t3]|]; [|done].
      by rewrite app_assoc.
    + rewrite IH.
      destruct (send_heartbeats self_ timeout_ now rs1 reg) as [[reg2 t2]|]; [|done].
      destruct (send_heartbeats self_ timeout_ now rs2 reg2) as [[reg3 t3]|]; [|done].
      by rewrite app_assoc.
Qed.

Lemma send_heartbeats_calls self_ timeout_ now rs (reg : list (Z * C)) reg' t :
  send_heartbeats self_ timeout_ now rs reg = Some (reg', t) →
  filter is_heartbeat_call t = expected_sends self_ timeout_ now rs
  ∧ filter is_ensure_disconnect t = [].
Proof.
  revert reg reg' t. induction rs as [|r rs IH]; intros reg reg' t.
  - by intros [= <- <-].
  - cbn [send_heartbeats]. unfold expected_sends.
    destruct (decide (target r = self_)) as [Hs|Hs].
    + rewrite filter_cons_False by (by intros ?).
      destruct (do_self_heartbeat r reg) as [[reg1 t1]|] eqn:E1; [|done].
      destruct (send_heartbeats self_ timeout_ now rs reg1) as [[reg2 t2]|] eqn:E2;
        [|done].
      intros [= <- <-]. rewrite !filter_app.
      apply process_reply_success_no_transport, transport_call_split in E1 as [-> ->].
      by apply IH in E2.
    + rewrite filter_cons_True by done.
      destruct (send_heartbeats self_ timeout_ now rs reg) as [[reg2 t2]|] eqn:E2;
        [|done].
      intros [= <- <-]. apply IH in E2 as [Hh Hd].
      cbn [fmap list_fmap concat do_heartbeat app].
      rewrite filter_cons_True, filter_cons_False by event_side.
      by rewrite Hh.
Qed.

Lemma send_heartbeats_defined self_ timeout_ now rs (reg : list (Z * C)) :
  Forall covered rs → is_Some (send_heartbeats self_ timeout_ now rs reg).
Proof.
  intros Hall. revert reg. induction Hall as [|r rs Hr Hall IH]; intros reg.
  - by eexists.
  - cbn [send_heartbeats]. destruct (decide (target r = self_)).
    + destruct (do_self_heartbeat_defined r reg Hr) as [[reg1 t1] ->].
      by destruct (IH reg1) as [[reg2 t2] ->].
    + by destruct (IH reg) as [[reg2 t2] ->].
Qed.

(** The loop over the reconnect set: it stops at the first call that
    throws; until then it has called each node in turn. *)
Lemma ensure_disconnect_all_calls ns (tp : T) :
  filter is_heartbeat_call (ensure_disconnect_all ns tp).1.2 = []
  ∧ match (ensure_disconnect_all ns tp).2 with
    | None =>
        (disconnect_calls (ensure_disconnect_all ns tp).1.2).*1 = ns
        ∧ Forall (λ d, ∃ b : bool, d.2 = inl b)
            (disconnect_calls (ensure_disconnect_all ns tp).1.2)
    | Some e =>
        ∃ k n, ns !! k = Some n
          ∧ (disconnect_calls (ensure_disconnect_all ns tp).1.2).*1 = take (S k) ns
          ∧ last (disconnect_calls (ensure_disconnect_all ns tp).1.2)
            = Some (n, inr e)
    end.
Proof.
  revert tp. induction ns as [|n ns IH]; intros tp; [done|].
  cbn [ensure_disconnect_all].
  destruct (ensure_disconnect tp n) as [[b|e] tp1].
  - specialize (IH tp1).
    destruct (ensure_disconnect_all ns tp1) as [[tp2 t] x]. cbn [fst snd] in *.
    destruct IH as [Hh IH]. split.
    + rewrite filter_cons_False by event_side. rewrite filter_app, Hh.
      by destruct b.
    + assert (Hd : disconnect_calls
                (call_ensure_disconnect n (inl b)
                   :: (if b then [log_closed_unresponsive_connection n] else []) ++ t)
              = (n, inl b) :: disconnect_calls t) by (by destruct b).
      rewrite Hd. destruct x as [e|].
      * destruct IH as (k & n' & Hk & Hcalls & Hlast).
        exists (S k), n'. split; [done|]. split.
        -- cbn [fmap list_fmap fst take]. by rewrite Hcalls.
        -- rewrite last_cons, Hlast. done.
      * destruct IH as [Hcalls Hall]. split.
        -- cbn [fmap list_fmap fst]. by rewrite Hcalls.
        -- constructor; [by exists b|done].
  - cbn [fst snd]. split; [done|]. exists 0, n. done.
Qed.

(** C6: wherever a batch addressed to the manager's own node stands in
    the list, [send_heartbeats] does not hand it to the client protocol:
    it gives it to the reply router with a reply that has, for each entry
    of the request and in the same order, an entry with status [success]
    whose [node_id] is the [target_node_id] of the request entry, and the
    router's success path makes no call on the client protocol; the
    [heartbeat] calls of the run are those of the batches addressed
    elsewhere. *)
Theorem self_heartbeat_is_local self_ timeout_ now rs1 r rs2 (reg : list (Z * C)) :
  target r = self_ →
  send_heartbeats self_ timeout_ now (rs1 ++ r :: rs2) reg
  = match send_heartbeats self_ timeout_ now rs1 reg with
    | Some (reg1, t1) =>
        match process_reply (target r) (meta_map r)
                (Ok (self_reply (request r))) reg1 with
        | Some (reg2, t2) =>
            match send_heartbeats self_ timeout_ now rs2 reg2 with
            | Some (reg3, t3) => Some (reg3, t1 ++ t2 ++ t3)
            | None => None
            end
        | None => None
        end
    | None => None
    end
  ∧ Forall2 (λ hb m, reply_result m = success
                     ∧ reply_node_id m = hb_target_node_id hb
                     ∧ reply_target_node_id m = hb_target_node_id hb
                     ∧ reply_group m = group (hb_meta hb))
            (request r) (self_reply (request r))
  ∧ (∀ reg1 reg2 t2,
       process_reply (target r) (meta_map r) (Ok (self_reply (request r))) reg1
       = Some (reg2, t2) →
       filter is_transport_call t2 = [])
  ∧ (∀ reg' t,
       send_heartbeats self_ timeout_ now (rs1 ++ r :: rs2) reg = Some (reg', t) →
       filter is_heartbeat_call t
       = expected_sends self_ timeout_ now rs1
           ++ expected_sends self_ timeout_ now rs2).
Proof.
  intros Ht. split; [|split; [apply self_reply_shape|split]].
  - rewrite send_heartbeats_app.
    destruct (send_heartbeats self_ timeout_ now rs1 reg) as [[reg1 t1]|]; [|done].
    rewrite send_heartbeats_self by done.
    destruct (process_reply _ _ _ reg1) as [[reg2 t2]|]; [|done].
    by destruct (send_heartbeats self_ timeout_ now rs2 reg2) as [[reg3 t3]|].
  - intros reg1 reg2 t2. apply process_reply_success_no_transport.
  - intros reg' t Hs. apply send_heartbeats_calls in Hs as [-> _].
    unfold expected_sends.
    rewrite filter_app, filter_cons_False by (by intros ?).
    by rewrite fmap_app, concat_app.
Qed.

(** C9, as the code has it: a dispatch cycle first runs the planner, then
    calls [ensure_disconnect] for the nodes of the reconnect set one after
    the other, then sends.  When every call returns, each node of the set
    has been called once, before any [heartbeat] call, whatever boolean
    came back, and every batch addressed to another node is sent.  When a
    call throws, the cycle ends there: the nodes after it are not called
    and nothing is sent or routed. *)
Theorem disconnect_then_send (m : heartbeat_manager) now now_send :
  let p := requests_for_range vnode_default
             (consensus_groups m) (heartbeat_interval m) now in
  let ns := elements (reconnect (reqs p)) in
  ∃ m' t1 t2 c,
    do_dispatch_heartbeats vnode_default m now now_send
    = Some (m', plan_trace p ++ t1 ++ t2, c)
    ∧ NoDup ns
    ∧ filter is_transport_call (plan_trace p) = []
    ∧ filter is_heartbeat_call t1 = []
    ∧ filter is_ensure_disconnect t2 = []
    ∧ match c with
      | completed =>
          (disconnect_calls t1).*1 = ns
          ∧ Forall (λ d, ∃ b : bool, d.2 = inl b) (disconnect_calls t1)
          ∧ filter is_heartbeat_call t2
            = expected_sends (self_node m) (heartbeat_timeout m) now_send
                (requests (reqs p))
      | threw e =>
          t2 = []
          ∧ ∃ k n, ns !! k = Some n
              ∧ (disconnect_calls t1).*1 = take (S k) ns
              ∧ last (disconnect_calls t1) = Some (n, inr e)
      end.
Proof.
  intros p ns. unfold do_dispatch_heartbeats. fold p. fold ns.
  pose proof (ensure_disconnect_all_calls ns (client_protocol m)) as [Hh Hx].
  destruct (ensure_disconnect_all ns (client_protocol m)) as [[tp t1] x].
  cbn [fst snd] in *.
  pose proof (plan_trace_no_transport (consensus_groups m) (heartbeat_interval m) now)
    as Hplan. fold p in Hplan.
  destruct x as [e|].
  - eexists _, t1, [], (threw e). rewrite app_nil_r.
    split; [done|]. split; [apply NoDup_elements|]. done.
  - assert (Hcov : Forall covered (requests (reqs p))).
    { apply Forall_forall. intros b Hb. by eapply planned_batch_covered. }
    destruct (send_heartbeats_defined (self_node m) (heartbeat_timeout m) now_send
                _ (groups_after p) Hcov) as [[reg t2] Hs].
    rewrite Hs. apply send_heartbeats_calls in Hs as [Hs1 Hs2].
    eexists _, t1, t2, completed.
    split; [done|]. split; [apply NoDup_elements|]. destruct Hx. done.
Qed.

End dispatcher_facts.

(** ** The registry *)

Section registry_facts.
Context {C : Type}.

Lemma find_group_above g (reg : list (Z * C)) :
  Forall (λ p, (g < p.1)%Z) reg → find_group g reg = None.
Proof.
  induction 1 as [|[g' c] rest Hlt _ IH]; [done|]. simpl in *.
  destruct (decide (g' = g)); [lia|done].
Qed.

Lemma insert_group_elem g (c : C) reg p :
  p ∈ (insert_group g c reg).1 → p = (g, c) ∨ p ∈ reg.
Proof.
  induction reg as [|[g' c'] rest IH]; simpl.
  - intros ->%list_elem_of_singleton. by left.
  - destruct (g' <? g)%Z.
    + destruct (insert_group g c rest) as [rest' b]. simpl in *.
      intros [->|Hin]%elem_of_cons; [right; left|].
      destruct (IH Hin) as [->|?]; [by left|by right; right].
    + destruct (decide (g' = g)); simpl; [by right|].
      intros [->|Hin]%elem_of_cons; [by left|by right].
Qed.

Lemma insert_group_spec g (c : C) reg :
  registry_ok reg →
  ((insert_group g c reg).2 = true ↔ find_group g reg = None)
  ∧ ((insert_group g c reg).2 = false → (insert_group g c reg).1 = reg)
  ∧ ((insert_group g c reg).2 = true →
       registry_ok (insert_group g c reg).1
       ∧ find_group g (insert_group g c reg).1 = Some c
       ∧ (∀ g', g' ≠ g →
            find_group g' (insert_group g c reg).1 = find_group g' reg)
       ∧ erase_group g (insert_group g c reg).1 = reg).
Proof.
  induction reg as [|[g' c'] rest IH]; intros Hok.
  - simpl. split; [done|]. split; [done|].
    intros _. split; [by split|]. rewrite !decide_True by done.
    split; [done|]. split; [|done].
    intros g' Hne. by rewrite decide_False.
  - destruct Hok as [Hlt Hok]. specialize (IH Hok). simpl.
    destruct (g' <? g)%Z eqn:Hcmp.
    + apply Z.ltb_lt in Hcmp.
      pose proof (insert_group_elem g c rest) as Helem.
      destruct (insert_group g c rest) as [rest' b]. simpl in *.
      destruct IH as (Hiff & Hsame & Hins).
      rewrite decide_False by lia. split; [done|]. split.
      * intros Hb. by rewrite (Hsame Hb).
      * intros Hb. destruct (Hins Hb) as (Hok' & Hfind & Hother & Herase).
        split; [|split; [|split]].
        -- split; [|done]. apply Forall_forall. intros p Hp.
           destruct (Helem p Hp) as [->|Hin]; [done|].
           by apply (proj1 (Forall_forall _ _) Hlt).
        -- by rewrite decide_False by lia.
        -- intros k Hk. destruct (decide (g' = k)); [done|]. by apply Hother.
        -- rewrite ?decide_False by lia. by rewrite Herase.
    + apply Z.ltb_ge in Hcmp. destruct (decide (g' = g)) as [->|Hne]; simpl.
      * rewrite decide_True by done. done.
      * rewrite !decide_True by done.
        assert (Habove : Forall (λ p : Z * C, (g < p.1)%Z) ((g', c') :: rest)).
        { constructor; [simpl; lia|].
          eapply Forall_impl; [exact Hlt|]. simpl. intros; lia. }
        assert (Hnone : find_group g rest = None).
        { apply find_group_above. by inversion Habove. }
        split; [done|]. split; [done|]. intros _.
        split; [by split|]. split; [done|]. split; [|done].
        intros k Hk. by rewrite (decide_False (P := g = k)) by done.
Qed.

Lemma erase_group_spec g (reg : list (Z * C)) :
  registry_ok reg →
  registry_ok (erase_group g reg)
  ∧ find_group g (erase_group g reg) = None
  ∧ (∀ g', g' ≠ g → find_group g' (erase_group g reg) = find_group g' reg)
  ∧ (∀ p, p ∈ erase_group g reg → p ∈ reg)
  ∧ (∀ c, find_group g reg = Some c →
       insert_group g c (erase_group g reg) = (reg, true)).
Proof.
  induction reg as [|[g' c'] rest IH]; intros Hok; [done|].
  destruct Hok as [Hlt Hok]. specialize (IH Hok).
  destruct IH as (Hok' & Hfind & Hother & Helem & Hins). simpl.
  destruct (decide (g' = g)) as [->|Hne].
  - split; [done|]. split; [by apply find_group_above|].
    split; [intros k Hk; by rewrite decide_False|].
    split; [intros p Hp; by right|].
    intros c [= ->].
    destruct rest as [|[g1 c1] rest1]; [done|]. simpl.
    apply Forall_cons in Hlt as [Hlt1 _]. simpl in Hlt1.
    assert ((g1 <? g)%Z = false) as -> by (apply Z.ltb_ge; lia).
    by rewrite decide_False by lia.
  - simpl. rewrite decide_False by done.
    split; [|split; [done|split; [|split]]].
    + split; [|done]. apply Forall_forall. intros p Hp.
      apply (proj1 (Forall_forall _ _) Hlt). by apply Helem.
    + intros k Hk. destruct (decide (g' = k)); [done|]. by apply Hother.
    + intros p [->|Hp]%elem_of_cons; [left|right; by apply Helem].
    + intros c Hc. destruct (g' <? g)%Z eqn:Hcmp.
      * by rewrite (Hins c Hc).
      * apply Z.ltb_ge in Hcmp.
        assert (find_group g rest = None); [|congruence].
        apply find_group_above. eapply Forall_impl; [exact Hlt|].
        simpl. intros; lia.
Qed.

(** X1: on a well-formed registry [register_group] fails exactly when the
    group is already registered; when it succeeds the registry is still
    well formed, the new handle is found under its group id, and the
    handles of the other groups are found as before. *)
Theorem register_group_spec g (c : C) reg :
  registry_ok reg →
  (register_group (g, c) reg = None ↔ is_Some (find_group g reg))
  ∧ ∀ reg', register_group (g, c) reg = Some reg' →
      registry_ok reg'
      ∧ find_group g reg' = Some c
      ∧ ∀ g', g' ≠ g → find_group g' reg' = find_group g' reg.
Proof.
  intros Hok. destruct (insert_group_spec g c reg Hok) as (Hiff & _ & Hins).
  unfold register_group. cbn [fst snd].
  destruct (insert_group g c reg) as [reg1 [|]]; cbn [fst snd] in *.
  - split.
    + split; [done|]. intros [x Hx]. destruct Hiff as [Hiff _].
      rewrite Hiff in Hx; done.
    + intros reg' [= <-]. destruct (Hins eq_refl) as (? & ? & ? & _). done.
  - split; [|done]. split; [|done]. intros _.
    destruct (find_group g reg) eqn:E; [by eexists|].
    destruct Hiff as [_ Hiff]. by specialize (Hiff eq_refl).
Qed.

(** X2: [deregister_group] fails exactly when the group is not
    registered; when it succeeds the registry is still well formed, the
    group is no longer found, and the other groups are found as before. *)
Theorem deregister_group_spec g (reg : list (Z * C)) :
  registry_ok reg →
  (deregister_group g reg = None ↔ find_group g reg = None)
  ∧ ∀ reg', deregister_group g reg = Some reg' →
      registry_ok reg'
      ∧ find_group g reg' = None
      ∧ ∀ g', g' ≠ g → find_group g' reg' = find_group g' reg.
Proof.
  intros Hok. destruct (erase_group_spec g reg Hok) as (? & ? & ? & _).
  unfold deregister_group. destruct (find_group g reg); split; try done.
  by intros reg' [= <-].
Qed.

(** X3: registering a group that was not there and deregistering it
    gives the registry back, and so does deregistering a registered
    group and registering the same handle again. *)
Theorem register_deregister_round_trip g (c : C) reg :
  registry_ok reg →
  (find_group g reg = None →
     register_group (g, c) reg ≫= deregister_group g = Some reg)
  ∧ (find_group g reg = Some c →
       deregister_group g reg ≫= register_group (g, c) = Some reg).
Proof.
  intros Hok. split.
  - intros Hnone.
    destruct (insert_group_spec g c reg Hok) as (Hiff & _ & Hins).
    unfold register_group. cbn [fst snd].
    destruct (insert_group g c reg) as [reg1 b]; cbn [fst snd] in *.
    apply Hiff in Hnone. subst b.
    destruct (Hins eq_refl) as (_ & Hfind & _ & Herase).
    cbn [mbind option_bind]. unfold deregister_group. by rewrite Hfind, Herase.
  - intros Hsome.
    destruct (erase_group_spec g reg Hok) as (_ & _ & _ & _ & Hins).
    unfold deregister_group. rewrite Hsome. cbn [mbind option_bind].
    unfold register_group. cbn [fst snd]. by rewrite (Hins c Hsome).
Qed.

End registry_facts.

(** ** More on the planner *)

Section planner_more.
Context {C : Type} `{!Consensus C}.
Variable vnode_default : vnode.

Local Abbreviation visit := (maybe_create_follower_request vnode_default).
Local Arguments maybe_create_follower_request : simpl never.

Lemma planner_trace_app t1 t2 :
  planner_trace t1 → planner_trace t2 → planner_trace (t1 ++ t2).
Proof.
  induction 1; intros H2; simpl; [done|constructor; auto..].
Qed.

Lemma visit_planner_trace g lh rni (st : C * planner) :
  planner_trace (visit g lh rni st).2.
Proof.
  destruct st as [ptr pl]. unfold maybe_create_follower_request.
  destruct (decide (rni = self ptr)); [repeat constructor|].
  destruct (are_heartbeats_suppressed ptr rni); [constructor|].
  destruct (_ <? _)%Z; [repeat constructor|].
  destruct (next_follower_sequence ptr rni) as [s p1]. simpl.
  by repeat constructor.
Qed.

Lemma for_each_planner_trace g lh vs (st : C * planner) :
  planner_trace (for_each_broker_id (visit g lh) vs st).2.
Proof.
  revert st. induction vs as [|v vs IH]; intros st; [constructor|].
  rewrite for_each_broker_id_cons. cbn [snd].
  apply planner_trace_app; [apply visit_planner_trace|apply IH].
Qed.

Lemma plan_groups_planner_trace lh (c : list (Z * C)) pl :
  planner_trace (plan_groups vnode_default lh c pl).2.
Proof.
  revert pl. induction c as [|[g ptr] c IH]; intros pl; [constructor|].
  rewrite plan_groups_cons. destruct (is_leader ptr); cbn [snd].
  - apply planner_trace_app; [apply for_each_planner_trace|apply IH].
  - apply IH.
Qed.

(** X8: the trace of a run of the planner is a sequence of self beats
    with sequence number 0, log lines of skipped beats, and triples
    [next_follower_sequence], [update_suppress_heartbeats(yes)] with the
    number just taken, [emplace_back] of a beat for that follower with
    that number on the vector of the follower's node.  The planner makes
    no other call on an instance. *)
Theorem planner_trace_shape (c : list (Z * C)) interval now :
  planner_trace (plan_trace (requests_for_range vnode_default c interval now)).
Proof.
  unfold requests_for_range. destruct c as [|h c]; [constructor|].
  pose proof (plan_groups_planner_trace (now - interval)%Z (h :: c) (mk_planner ∅ ∅))
    as Hp.
  by destruct (plan_groups vnode_default (now - interval)%Z (h :: c) (mk_planner ∅ ∅))
    as [[c' pl] t].
Qed.

(** The handles after the loop over the registry. *)
Lemma plan_groups_handles lh (c : list (Z * C)) pl :
  Forall2 (λ x y, y.1 = x.1 ∧ (is_leader x.2 = false → y = x))
          c (plan_groups vnode_default lh c pl).1.1.
Proof.
  revert pl. induction c as [|[g ptr] c IH]; intros pl; [constructor|].
  rewrite plan_groups_cons. destruct (is_leader ptr) eqn:E; cbn [fst snd].
  - constructor; [|apply IH]. split; [done|]. simpl. congruence.
  - constructor; [|apply IH]. done.
Qed.

(** X4: a run of the planner returns the registry with the same group ids
    in the same order, and with the handle of every group that is not a
    leader as it was. *)
Theorem planner_keeps_registry (c : list (Z * C)) interval now :
  Forall2 (λ x y, y.1 = x.1 ∧ (is_leader x.2 = false → y = x))
          c (groups_after (requests_for_range vnode_default c interval now)).
Proof.
  unfold requests_for_range. destruct c as [|h c]; [constructor|].
  pose proof (plan_groups_handles (now - interval)%Z (h :: c) (mk_planner ∅ ∅)) as Hp.
  by destruct (plan_groups vnode_default (now - interval)%Z (h :: c) (mk_planner ∅ ∅))
    as [[c' pl] t].
Qed.

(** Without a leader nothing is planned. *)
Lemma plan_groups_no_leader lh (c : list (Z * C)) pl :
  Forall (λ x, is_leader x.2 = false) c →
  plan_groups vnode_default lh c pl = (c, pl, []).
Proof.
  induction 1 as [|[g ptr] c Hl _ IH]; [done|]. simpl in Hl.
  by rewrite plan_groups_cons, Hl, IH.
Qed.

Lemma requests_for_range_no_leader (c : list (Z * C)) interval now :
  Forall (λ x, is_leader x.2 = false) c →
  requests_for_range vnode_default c interval now
  = mk_planned (mk_heartbeat_requests [] ∅) c [].
Proof.
  intros Hall. unfold requests_for_range. destruct c as [|h c]; [done|].
  rewrite plan_groups_no_leader by done. cbn [pending_beats reconnect_nodes].
  by rewrite map_to_list_empty.
Qed.

(** A node is put in the reconnect set only when a beat is queued for it. *)
Lemma emplace_back_dom n x (pb : gmap Z (list (heartbeat_metadata * Z))) :
  dom (emplace_back n x pb) = {[n]} ∪ dom pb.
Proof. unfold emplace_back. apply dom_insert_L. Qed.

Lemma visit_reconnect g lh rni (st : C * planner) :
  reconnect_nodes st.2 ⊆ dom (pending_beats st.2) →
  reconnect_nodes (visit g lh rni st).1.2
    ⊆ dom (pending_beats (visit g lh rni st).1.2).
Proof.
  destruct st as [ptr pl]. unfold maybe_create_follower_request. cbn [snd].
  intros Hsub.
  destruct (decide (rni = self ptr)).
  { cbn [fst snd pending_beats reconnect_nodes]. rewrite emplace_back_dom.
    set_solver. }
  destruct (are_heartbeats_suppressed ptr rni); [done|].
  destruct (_ <? _)%Z; [done|].
  destruct (next_follower_sequence ptr rni) as [s p1].
  cbn [fst snd pending_beats reconnect_nodes]. rewrite emplace_back_dom.
  destruct (should_reconnect_follower _ _); set_solver.
Qed.

Lemma for_each_reconnect g lh vs (st : C * planner) :
  reconnect_nodes st.2 ⊆ dom (pending_beats st.2) →
  reconnect_nodes (for_each_broker_id (visit g lh) vs st).1.2
    ⊆ dom (pending_beats (for_each_broker_id (visit g lh) vs st).1.2).
Proof.
  revert st. induction vs as [|v vs IH]; intros st Hsub; [done|].
  rewrite for_each_broker_id_cons. cbn [fst]. apply IH.
  by apply visit_reconnect.
Qed.

Lemma plan_groups_reconnect lh (c : list (Z * C)) pl :
  reconnect_nodes pl ⊆ dom (pending_beats pl) →
  reconnect_nodes (plan_groups vnode_default lh c pl).1.2
    ⊆ dom (pending_beats (plan_groups vnode_default lh c pl).1.2).
Proof.
  revert pl. induction c as [|[g ptr] c IH]; intros pl Hsub; [done|].
  rewrite plan_groups_cons. destruct (is_leader ptr); cbn [fst snd].
  - apply IH. by apply (for_each_reconnect g lh (config ptr) (ptr, pl)).
  - by apply IH.
Qed.

(** X6: every node of the reconnect set of a run has a batch in that
    run. *)
Theorem reconnect_nodes_have_batch (c : list (Z * C)) interval now n :
  n ∈ reconnect (reqs (requests_for_range vnode_default c interval now)) →
  ∃ b, b ∈ requests (reqs (requests_for_range vnode_default c interval now))
       ∧ target b = n.
Proof.
  unfold requests_for_range. destruct c as [|h c].
  { cbn [reqs reconnect]. set_solver. }
  pose proof (plan_groups_reconnect (now - interval)%Z (h :: c) (mk_planner ∅ ∅)) as Hp.
  destruct (plan_groups vnode_default (now - interval)%Z (h :: c) (mk_planner ∅ ∅))
    as [[c' pl] t]. cbn [fst snd reqs reconnect requests] in *.
  intros Hn. assert (Hd : n ∈ dom (pending_beats pl)).
  { apply Hp; [|done]. cbn [reconnect_nodes]. set_solver. }
  apply elem_of_dom in Hd as [l Hl].
  exists (build_node_heartbeat (n, l)). split; [|done].
  apply list_elem_of_fmap. exists (n, l). split; [done|].
  by apply elem_of_map_to_list.
Qed.

(** The [meta_map] keeps, for each group, what the first beat of that
    group gave. *)
Lemma build_meta_map_lookup_gen (l : list (heartbeat_metadata * Z))
    (m : gmap Z follower_request_meta) g :
  foldl (λ m '(hb, s),
           emplace (group (hb_meta hb))
             (mk_follower_request_meta
                s (prev_log_index (hb_meta hb)) (hb_target_node_id hb)) m)
        m l !! g
  = match m !! g with
    | Some fm => Some fm
    | None => request_meta_of <$> first_of_group g l
    end.
Proof.
  revert m. induction l as [|[hb s] l IH]; intros m.
  - simpl. by destruct (m !! g).
  - cbn [foldl]. rewrite IH. unfold emplace, first_of_group.
    destruct (decide (group (hb_meta hb) = g)) as [<-|Hne].
    + rewrite filter_cons_True by done. cbn [head fmap option_fmap option_map].
      destruct (m !! group (hb_meta hb)) as [fm|] eqn:E; [by rewrite E|].
      by rewrite lookup_insert_eq.
    + rewrite filter_cons_False by done.
      destruct (m !! group (hb_meta hb)) as [fm|] eqn:E; [done|].
      by rewrite lookup_insert_ne.
Qed.

(** X7: in every batch of a run the [meta_map] entry of a group is the
    one of the first beat of that group queued for the batch's node: its
    sequence number, its [prev_log_index] as dirty offset, its target
    vnode.  Later beats of the same group in the batch leave no entry. *)
Theorem meta_map_first_beat (c : list (Z * C)) interval now b g :
  b ∈ requests (reqs (requests_for_range vnode_default c interval now)) →
  meta_map b !! g
  = request_meta_of
      <$> first_of_group g
            (beats_for (target b)
               (emplaced (plan_trace
                  (requests_for_range vnode_default c interval now)))).
Proof.
  intros (l & Hb & _ & Hl)%requests_for_range_batch.
  rewrite <- Hl, Hb. cbn [build_node_heartbeat meta_map snd].
  unfold build_meta_map. by rewrite build_meta_map_lookup_gen, lookup_empty.
Qed.

(** The planner's result for a leader that is its group's only voter. *)
Lemma single_voter_plan g (ptr : C) interval now :
  is_leader ptr = true → config ptr = [self ptr] →
  requests_for_range vnode_default [(g, ptr)] interval now
  = mk_planned
      (mk_heartbeat_requests
         [mk_node_heartbeat (vnode_id (self ptr)) [self_beat vnode_default ptr]
            {[group (meta ptr) :=
                mk_follower_request_meta
                  0%Z (prev_log_index (meta ptr)) vnode_default]}]
         ∅)
      [(g, ptr)]
      [pending_emplace (vnode_id (self ptr)) (self_beat vnode_default ptr) 0%Z].
Proof.
  intros Hlead Hcfg.
  unfold requests_for_range. rewrite plan_groups_cons, Hlead, Hcfg.
  rewrite for_each_broker_id_cons.
  unfold maybe_create_follower_request at 1 2 3.
  rewrite decide_True by done.
  cbn [for_each_broker_id plan_groups fst snd pending_beats reconnect_nodes app].
  unfold emplace_back. rewrite lookup_empty, insert_empty, map_to_list_singleton.
  cbn [fmap list_fmap default app].
  unfold build_node_heartbeat, build_meta_map, emplace. cbn [foldl fst snd].
  rewrite lookup_empty, insert_empty. done.
Qed.

End planner_more.

(** ** More on the reply router *)

Section reply_router_more.
Context {C : Type} `{!Consensus C}.

Lemma update_group_keys g (f : C → C) reg :
  (update_group g f reg).*1 = reg.*1.
Proof.
  induction reg as [|[g' c] reg IH]; [done|]. cbn [update_group].
  destruct (decide (g' = g)); rewrite !fmap_cons; [done|]. by rewrite IH.
Qed.

Lemma update_group_not_found g (f : C → C) reg :
  find_group g reg = None → update_group g f reg = reg.
Proof.
  induction reg as [|[g' c] reg IH]; [done|]. simpl.
  destruct (decide (g' = g)); [done|]. intros Hn. by rewrite IH.
Qed.

Lemma registry_ok_keys (reg reg' : list (Z * C)) :
  reg'.*1 = reg.*1 → registry_ok reg → registry_ok reg'.
Proof.
  revert reg'. induction reg as [|[g c] reg IH]; intros [|[g' c'] reg'] Hk;
    try done.
  rewrite !fmap_cons in Hk. injection Hk as Hg Hk. cbn [fst] in Hg. subst g'.
  intros [Hlt Hok]. split; [|by apply IH].
  apply Forall_forall. intros p Hp.
  assert (Hin : p.1 ∈ reg.*1).
  { rewrite <- Hk. apply list_elem_of_fmap. by exists p. }
  apply list_elem_of_fmap in Hin as (q & -> & Hq).
  by apply (proj1 (Forall_forall _ _) Hlt).
Qed.

Lemma process_reply_error_keys n e gs (reg : list (Z * C)) :
  (process_reply_error n e gs reg).1.*1 = reg.*1.
Proof.
  revert reg. induction gs as [|[g fm] gs IH]; intros reg; [done|].
  cbn [process_reply_error]. destruct (find_group g reg).
  - specialize (IH (update_group g (route_error n e fm) reg)).
    destruct (process_reply_error n e gs _) as [reg' t]. cbn [fst] in *.
    by rewrite IH, update_group_keys.
  - specialize (IH reg).
    by destruct (process_reply_error n e gs reg) as [reg' t].
Qed.

Lemma success_entry_trace_update g (f : C → C) reg groups n m :
  success_entry_trace (update_group g f reg) groups n m
  = success_entry_trace reg groups n m.
Proof.
  unfold success_entry_trace.
  pose proof (find_group_update_is_Some g (reply_group m) f reg) as Hs.
  destruct (find_group (reply_group m) (update_group g f reg)) as [c1|] eqn:E1;
    destruct (find_group (reply_group m) reg) as [c2|] eqn:E2; try done.
  - destruct Hs as [Hs _]. by destruct Hs.
  - destruct Hs as [_ Hs]. by destruct Hs.
Qed.

Lemma process_reply_success_spec n (groups : gmap Z follower_request_meta)
    ms (reg : list (Z * C)) reg' t :
  process_reply_success n groups ms reg = Some (reg', t) →
  t = concat (success_entry_trace reg groups n <$> ms)
  ∧ reg'.*1 = reg.*1
  ∧ ∀ g, find_group g reg'
         = match groups !! g with
           | Some fm => routed_state n fm g ms <$> find_group g reg
           | None => find_group g reg
           end.
Proof.
  revert reg reg' t. induction ms as [|m ms IH]; intros reg reg' t.
  - intros [= <- <-]. split; [done|]. split; [done|]. intros g.
    destruct (groups !! g); [|done]. by destruct (find_group g reg).
  - cbn [process_reply_success fmap list_fmap concat].
    unfold success_entry_trace at 1.
    destruct (find_group (reply_group m) reg) as [c|] eqn:E.
    + destruct (groups !! reply_group m) as [fm|] eqn:G; [|done].
      destruct (process_reply_success n groups ms _) as [[reg1 t1]|] eqn:E1; [|done].
      intros [= <- <-]. apply IH in E1 as (-> & Hk & Hf).
      split; [|split].
      * assert (Hext : success_entry_trace
                         (update_group (reply_group m) (route_success n m fm) reg)
                         groups n <$> ms
                       = success_entry_trace reg groups n <$> ms).
        { apply list_fmap_ext. intros ? x _. apply success_entry_trace_update. }
        by rewrite Hext.
      * by rewrite Hk, update_group_keys.
      * intros g. rewrite Hf. destruct (decide (reply_group m = g)) as [<-|Hne].
        -- rewrite G, find_group_update_eq, E. cbn [fmap option_fmap option_map].
           unfold routed_state. cbn [foldl]. by rewrite decide_True.
        -- rewrite find_group_update_ne by done.
           destruct (groups !! g) as [fm'|]; [|done].
           destruct (find_group g reg); [|done].
           cbn [fmap option_fmap option_map]. unfold routed_state. cbn [foldl].
           by rewrite decide_False.
    + destruct (process_reply_success n groups ms reg) as [[reg1 t1]|] eqn:E1; [|done].
      intros [= <- <-]. apply IH in E1 as (-> & Hk & Hf).
      split; [done|]. split; [done|]. intros g. rewrite Hf.
      destruct (groups !! g) as [fm'|]; [|done].
      destruct (find_group g reg) as [c|] eqn:Eg; [|done].
      cbn [fmap option_fmap option_map]. unfold routed_state. cbn [foldl].
      rewrite decide_False; [done|]. intros <-. congruence.
Qed.

Lemma routed_state_filter n (fm : follower_request_meta) g
    (ms : list append_entries_reply) (c : C) :
  routed_state n fm g ms c
  = routed_state n fm g (filter (λ m, reply_group m = g) ms) c.
Proof.
  unfold routed_state. revert c. induction ms as [|m ms IH]; intros c; [done|].
  cbn [foldl]. destruct (decide (reply_group m = g)) as [Hg|Hg].
  - rewrite filter_cons_True by done. cbn [foldl].
    rewrite decide_True by done. apply IH.
  - rewrite filter_cons_False by done. apply IH.
Qed.

(** X9: when the success path of the router has a result, its trace goes
    through the entries of the reply in order: the error log line for an
    entry whose group the registry lacks, otherwise the three calls
    [update_heartbeat_status(follower, true)],
    [update_suppress_heartbeats(follower, seq, no)] and
    [process_append_entries_reply(n, entry, seq, dirty_offset)] with
    follower, seq and dirty offset taken from the [meta_map], whatever the
    entry says.  Each registered group's instance ends up as after its own
    entries, applied in order; for a group with one entry in the reply
    that is the instance these three calls leave. *)
Theorem success_routing n (groups : gmap Z follower_request_meta)
    (reply : list append_entries_reply) (reg reg' : list (Z * C)) t :
  process_reply n groups (Ok reply) reg = Some (reg', t) →
  t = concat (success_entry_trace reg groups n <$> reply)
  ∧ (∀ m, m ∈ reply →
       (find_group (reply_group m) reg = None →
          success_entry_trace reg groups n m
          = [log_could_not_find_consensus (reply_group m)])
       ∧ (is_Some (find_group (reply_group m) reg) →
            ∃ fm, groups !! reply_group m = Some fm
              ∧ success_entry_trace reg groups n m
                = [call_update_heartbeat_status
                     (reply_group m) (follower_vnode fm) true;
                   call_update_suppress_heartbeats
                     (reply_group m) (follower_vnode fm) (seq fm) false;
                   call_process_append_entries_reply
                     (reply_group m) n (Ok m) (seq fm) (dirty_offset fm)]))
  ∧ (∀ g, find_group g reg'
          = match groups !! g with
            | Some fm => routed_state n fm g reply <$> find_group g reg
            | None => find_group g reg
            end)
  ∧ (∀ g fm m, groups !! g = Some fm →
       filter (λ m, reply_group m = g) reply = [m] →
       find_group g reg'
       = (λ c, process_append_entries_reply
                 (update_suppress_heartbeats
                    (update_heartbeat_status c (follower_vnode fm) true)
                    (follower_vnode fm) (seq fm) false)
                 n (Ok m) (seq fm) (dirty_offset fm))
           <$> find_group g reg).
Proof.
  cbn [process_reply]. intros Hp.
  pose proof (process_reply_success_spec _ _ _ _ _ _ Hp) as (Ht & _ & Hf).
  split; [done|]. split; [|split; [done|]].
  - intros m Hm. unfold success_entry_trace. split.
    + by intros ->.
    + intros [c Hc]. rewrite Hc.
      destruct (groups !! reply_group m) as [fm|] eqn:G; [by exists fm|].
      assert (Hnone : process_reply_success n groups reply reg = None).
      { apply process_reply_success_None. exists m. by rewrite Hc. }
      congruence.
  - intros g fm m Hg Hfil. rewrite Hf, Hg.
    destruct (find_group g reg) as [c|]; [|done].
    cbn [fmap option_fmap option_map]. rewrite routed_state_filter, Hfil.
    unfold routed_state. cbn [foldl].
    assert (Hmg : reply_group m = g).
    { assert (Hin : m ∈ filter (λ m, reply_group m = g) reply)
        by (rewrite Hfil; left).
      by apply list_elem_of_filter in Hin as [? _]. }
    by rewrite decide_True.
Qed.

(** X10: routing a reply or an error never changes which groups are
    registered, nor their order; a well-formed registry stays well
    formed. *)
Theorem process_reply_keeps_groups n (groups : gmap Z follower_request_meta)
    (r : result (list append_entries_reply)) (reg reg' : list (Z * C)) t :
  process_reply n groups r reg = Some (reg', t) →
  reg'.*1 = reg.*1 ∧ (registry_ok reg → registry_ok reg').
Proof.
  intros Hp. assert (Hk : reg'.*1 = reg.*1).
  { destruct r as [reply|e]; cbn [process_reply] in Hp.
    - by apply process_reply_success_spec in Hp as (_ & Hk & _).
    - pose proof (process_reply_error_keys n e (map_to_list groups) reg) as Hk.
      destruct (process_reply_error n e (map_to_list groups) reg) as [reg1 t1].
      by injection Hp as <- <-. }
  split; [done|]. by apply registry_ok_keys.
Qed.

Lemma process_reply_error_unregistered n e gs (reg : list (Z * C)) :
  Forall (λ p, find_group p.1 reg = None) gs →
  process_reply_error n e gs reg
  = (reg, log_cannot_find_consensus_group <$> gs.*1).
Proof.
  induction 1 as [|[g fm] gs Hg _ IH]; [done|]. simpl in Hg.
  cbn [process_reply_error]. by rewrite Hg, IH.
Qed.

(** X11: a reply or an error for groups none of which is registered any
    more changes nothing and calls nothing: the router only writes its
    log lines.  On the success path this holds whatever the [meta_map]
    has. *)
Theorem unregistered_groups_only_logged n
    (groups : gmap Z follower_request_meta) (reg : list (Z * C)) :
  (∀ e, (∀ g, is_Some (groups !! g) → find_group g reg = None) →
     process_reply n groups (Err e) reg
     = Some (reg,
             log_could_not_send n e
               :: (log_cannot_find_consensus_group <$> (map_to_list groups).*1)))
  ∧ (∀ reply, (∀ m, m ∈ reply → find_group (reply_group m) reg = None) →
       process_reply n groups (Ok reply) reg
       = Some (reg, (λ m, log_could_not_find_consensus (reply_group m)) <$> reply)).
Proof.
  split.
  - intros e Hun. cbn [process_reply].
    rewrite process_reply_error_unregistered; [done|].
    apply Forall_forall. intros [g fm] Hin. simpl. apply Hun.
    apply elem_of_map_to_list in Hin. by eexists.
  - intros reply. cbn [process_reply].
    induction reply as [|m ms IH]; intros Hun; [done|].
    cbn [process_reply_success]. rewrite (Hun m) by left.
    rewrite IH; [done|]. intros m' Hm'. apply Hun. by right.
Qed.

End reply_router_more.

(** ** More on the dispatcher *)

Section dispatcher_more.
Context {C T : Type} `{!Consensus C} `{!ClientProtocol T}.
Variable vnode_default : vnode.

Lemma heartbeat_calls_app t1 t2 :
  heartbeat_calls (t1 ++ t2) = heartbeat_calls t1 ++ heartbeat_calls t2.
Proof. unfold heartbeat_calls. apply omap_app. Qed.

Lemma heartbeat_calls_filter t :
  heartbeat_calls (filter is_heartbeat_call t) = heartbeat_calls t.
Proof.
  induction t as [|e t IH]; [done|].
  destruct e;
    first [ rewrite filter_cons_True by event_side
          | rewrite filter_cons_False by event_side ];
    unfold heartbeat_calls in *; cbn [omap list_omap]; by rewrite ?IH.
Qed.

Lemma heartbeat_calls_none t :
  filter is_heartbeat_call t = [] → heartbeat_calls t = [].
Proof. intros Hf. by rewrite <- heartbeat_calls_filter, Hf. Qed.

Lemma heartbeat_calls_expected self_ timeout_ now rs :
  heartbeat_calls (expected_sends self_ timeout_ now rs)
  = heartbeat_call_of timeout_ now <$> filter (λ r, target r ≠ self_) rs.
Proof.
  unfold expected_sends.
  induction (filter (λ r, target r ≠ self_) rs) as [|r l IH]; [done|].
  cbn. by rewrite <- IH.
Qed.

(** How a cycle ends, by how the loop over the reconnect set ends. *)
Lemma do_dispatch_heartbeats_cases (m : heartbeat_manager) now now_send :
  let p := requests_for_range vnode_default
             (consensus_groups m) (heartbeat_interval m) now in
  let d := ensure_disconnect_all (elements (reconnect (reqs p)))
             (client_protocol m) in
  match d.2 with
  | Some e =>
      do_dispatch_heartbeats vnode_default m now now_send
      = Some (mk_heartbeat_manager (heartbeat_interval m) (heartbeat_timeout m)
                d.1.1 (self_node m) (groups_after p),
              plan_trace p ++ d.1.2, threw e)
  | None =>
      ∃ reg t2,
        send_heartbeats (self_node m) (heartbeat_timeout m) now_send
          (requests (reqs p)) (groups_after p) = Some (reg, t2)
        ∧ do_dispatch_heartbeats vnode_default m now now_send
          = Some (mk_heartbeat_manager (heartbeat_interval m) (heartbeat_timeout m)
                    d.1.1 (self_node m) reg,
                  plan_trace p ++ d.1.2 ++ t2, completed)
  end.
Proof.
  intros p d. unfold do_dispatch_heartbeats. fold p. fold d.
  destruct d as [[tp t1] [e|]]; cbn [fst snd]; [done|].
  assert (Hcov : Forall covered (requests (reqs p))).
  { apply Forall_forall. intros b Hb. by eapply planned_batch_covered. }
  destruct (send_heartbeats_defined (self_node m) (heartbeat_timeout m) now_send
              _ (groups_after p) Hcov) as [[reg t2] Hs].
  exists reg, t2. by rewrite Hs.
Qed.

(** A dispatch cycle always has a result and keeps interval, timeout
    and node id. *)
Lemma do_dispatch_heartbeats_defined (m : heartbeat_manager) now now_send :
  ∃ m' t c,
    do_dispatch_heartbeats vnode_default m now now_send = Some (m', t, c)
    ∧ heartbeat_interval m' = heartbeat_interval m
    ∧ heartbeat_timeout m' = heartbeat_timeout m
    ∧ self_node m' = self_node m.
Proof.
  pose proof (do_dispatch_heartbeats_cases m now now_send) as Hc. cbv zeta in Hc.
  destruct (ensure_disconnect_all _ _).2 as [e|].
  - by eexists _, _, _.
  - destruct Hc as (reg & t2 & _ & Hd). by eexists _, _, _.
Qed.

(** X12: in a dispatch cycle the client protocol gets at most one
    [heartbeat] call per node and none for the manager's own node; every
    call carries a request that is not empty, the deadline
    [now + heartbeat_timeout], zstd compression and the threshold 512. *)
Theorem heartbeat_calls_of_cycle (m m' : heartbeat_manager) now now_send t c :
  do_dispatch_heartbeats vnode_default m now now_send = Some (m', t, c) →
  NoDup (hc_target <$> heartbeat_calls t)
  ∧ Forall (λ h, hc_target h ≠ self_node m
                 ∧ hc_request h ≠ []
                 ∧ hc_deadline h = (now_send + heartbeat_timeout m)%Z
                 ∧ hc_compression h = compression_zstd
                 ∧ hc_min_compression_bytes h = 512%Z)
           (heartbeat_calls t).
Proof.
  intros Hd.
  pose proof (do_dispatch_heartbeats_cases m now now_send) as Hc. cbv zeta in Hc.
  pose proof (ensure_disconnect_all_calls
                (elements (reconnect (reqs (requests_for_range vnode_default
                   (consensus_groups m) (heartbeat_interval m) now))))
                (client_protocol m)) as [Ht1 _].
  pose proof (plan_trace_no_transport vnode_default (consensus_groups m)
                (heartbeat_interval m) now) as [Hp _]%transport_call_split.
  set (p := requests_for_range vnode_default
              (consensus_groups m) (heartbeat_interval m) now) in *.
  destruct (ensure_disconnect_all _ _) as [[tp t1] [e|]]; cbn [fst snd] in *.
  - rewrite Hc in Hd. injection Hd as <- <- <-.
    rewrite heartbeat_calls_app, (heartbeat_calls_none _ Hp),
      (heartbeat_calls_none _ Ht1). split; [constructor|constructor].
  - destruct Hc as (reg & t2 & Hs & Hc). rewrite Hc in Hd.
    injection Hd as <- <- <-. apply send_heartbeats_calls in Hs as [Hs _].
    rewrite !heartbeat_calls_app, (heartbeat_calls_none _ Hp),
      (heartbeat_calls_none _ Ht1). cbn [app].
    rewrite <- heartbeat_calls_filter, Hs, heartbeat_calls_expected.
    split.
    + rewrite <- list_fmap_compose.
      eapply (sublist_NoDup _ (target <$> requests (reqs p))).
      * unfold p. rewrite requests_for_range_requests, <- list_fmap_compose.
        apply (NoDup_fst_map_to_list
                 (replay (emplaced (plan_trace
                    (requests_for_range vnode_default (consensus_groups m)
                       (heartbeat_interval m) now))) ∅)).
      * apply fmap_sublist, sublist_filter.
    + apply Forall_fmap, Forall_forall. intros r [Hr Hin]%list_elem_of_filter.
      cbn. split; [done|]. split; [|done].
      apply requests_for_range_batch in Hin as (l & Hb & Hne & _).
      rewrite Hb. cbn. by destruct l.
Qed.

(** X5: when no registered group is a leader, a dispatch cycle calls
    nothing, neither an instance nor the client protocol, and leaves the
    manager as it was; so too on an empty registry. *)
Theorem idle_cycle (m : heartbeat_manager) now now_send :
  Forall (λ x, is_leader x.2 = false) (consensus_groups m) →
  do_dispatch_heartbeats vnode_default m now now_send = Some (m, [], completed).
Proof.
  intros Hall. unfold do_dispatch_heartbeats.
  rewrite requests_for_range_no_leader by done.
  cbn [reqs reconnect requests groups_after plan_trace].
  rewrite elements_empty. cbn [ensure_disconnect_all send_heartbeats app].
  by destruct m.
Qed.

(** X13: a manager whose one group it leads alone, registered under the
    group id its [meta()] carries and with the manager's node id, goes
    through a whole cycle without the client protocol: the self beat is
    queued, and the synthesized reply is routed to the instance with the
    sequence number 0, so that after the cycle the instance is the one
    [update_heartbeat_status(true)], [update_suppress_heartbeats(0, no)]
    and [process_append_entries_reply] with that reply leave. *)
Theorem single_node_cycle (m : heartbeat_manager) g (ptr : C) now now_send :
  consensus_groups m = [(g, ptr)] →
  is_leader ptr = true →
  config ptr = [self ptr] →
  group (meta ptr) = g →
  self_node m = vnode_id (self ptr) →
  let reply := mk_append_entries_reply vnode_default vnode_default g success in
  do_dispatch_heartbeats vnode_default m now now_send
  = Some (mk_heartbeat_manager (heartbeat_interval m) (heartbeat_timeout m)
            (client_protocol m) (self_node m)
            [(g, process_append_entries_reply
                   (update_suppress_heartbeats
                      (update_heartbeat_status ptr vnode_default true)
                      vnode_default 0 false)
                   (self_node m) (Ok reply) 0 (prev_log_index (meta ptr)))],
          [pending_emplace (self_node m) (self_beat vnode_default ptr) 0%Z;
           call_update_heartbeat_status g vnode_default true;
           call_update_suppress_heartbeats g vnode_default 0 false;
           call_process_append_entries_reply
             g (self_node m) (Ok reply) 0 (prev_log_index (meta ptr))],
          completed).
Proof.
  intros Hreg Hlead Hcfg Hg Hself reply. unfold do_dispatch_heartbeats.
  rewrite Hreg, (single_voter_plan vnode_default g ptr) by done.
  cbn [reqs reconnect requests groups_after plan_trace].
  rewrite elements_empty. cbn [ensure_disconnect_all send_heartbeats target].
  rewrite decide_True by done.
  unfold do_self_heartbeat, self_reply, self_beat.
  cbn [target request meta_map fmap list_fmap hb_target_node_id hb_meta
       process_reply process_reply_success reply_group find_group].
  rewrite Hg, decide_True by done. rewrite lookup_singleton_eq.
  cbn [update_group]. rewrite decide_True by done.
  unfold route_success_trace. cbn [reply_group follower_vnode seq dirty_offset app].
  by rewrite <- Hself.
Qed.

End dispatcher_more.

(** ** From the planner to the router *)

Section plan_then_route.
Context {C : Type} `{!Consensus C}.
Variable vnode_default : vnode.

Lemma list_to_map_first (l : list (heartbeat_metadata * Z)) g :
  (list_to_map ((λ x, (group (hb_meta x.1), request_meta_of x)) <$> l)
     : gmap Z follower_request_meta) !! g
  = request_meta_of <$> first_of_group g l.
Proof.
  induction l as [|x l IH]; [done|].
  cbn [fmap list_fmap list_to_map foldr]. unfold first_of_group in *.
  destruct (decide (group (hb_meta x.1) = g)) as [<-|Hne].
  - rewrite filter_cons_True by done. by rewrite lookup_insert_eq.
  - rewrite filter_cons_False by done. by rewrite lookup_insert_ne.
Qed.

Lemma build_meta_map_list_to_map (l : list (heartbeat_metadata * Z)) :
  build_meta_map l
  = list_to_map ((λ x, (group (hb_meta x.1), request_meta_of x)) <$> l).
Proof.
  apply map_eq. intros g. rewrite list_to_map_first. unfold build_meta_map.
  by rewrite build_meta_map_lookup_gen, lookup_empty.
Qed.

Lemma suppress_off_calls_error n e (reg : list (Z * C))
    (L : list (Z * follower_request_meta)) :
  Forall (λ p, is_Some (find_group p.1 reg)) L →
  suppress_off_calls (concat (error_pair_trace reg n e <$> L))
  = (λ p, (p.1, follower_vnode p.2, seq p.2)) <$> L.
Proof.
  induction 1 as [|[g fm] L [c Hc] _ IH]; [done|].
  cbn [fmap list_fmap concat]. unfold error_pair_trace at 1.
  cbn [fst snd] in *. rewrite Hc. unfold route_error_trace. cbn [app].
  unfold suppress_off_calls in *. cbn [omap list_omap]. by rewrite IH.
Qed.

Lemma first_of_group_NoDup (l : list (heartbeat_metadata * Z)) x :
  NoDup (request_groups l.*1) → x ∈ l →
  first_of_group (group (hb_meta x.1)) l = Some x.
Proof.
  unfold first_of_group.
  induction l as [|y l IH]; intros Hnd Hx; [by apply elem_of_nil in Hx|].
  cbn [fmap list_fmap request_groups] in Hnd.
  apply NoDup_cons in Hnd as [Hy Hnd].
  apply elem_of_cons in Hx as [->|Hx].
  - by rewrite filter_cons_True.
  - rewrite filter_cons_False; [by apply IH|].
    intros Heq. apply Hy. rewrite Heq.
    apply list_elem_of_fmap. exists x.1. split; [done|].
    apply list_elem_of_fmap. by exists x.
Qed.

(** X15: a transport error for a batch of the planner whose beats are of
    distinct groups, all still registered, switches suppression off once
    for every beat of the batch, with the beat's target vnode and the
    sequence number queued with it: the trace has exactly these
    [update_suppress_heartbeats(no)] calls, and the instance of each
    beat's group is afterwards the one that
    [update_heartbeat_status(target, false)],
    [update_suppress_heartbeats(target, seq, no)],
    [process_append_entries_reply] with the error, that sequence number
    and the beat's [prev_log_index], and the probe's
    [heartbeat_request_error] leave, in this order. *)
Theorem transport_error_lifts_suppression
    (c : list (Z * C)) interval now b e (reg : list (Z * C)) :
  b ∈ requests (reqs (requests_for_range vnode_default c interval now)) →
  NoDup (request_groups (request b)) →
  (∀ g, g ∈ request_groups (request b) → is_Some (find_group g reg)) →
  ∃ reg' t,
    heartbeat_continuation b (Err e) reg = Some (reg', t)
    ∧ suppress_off_calls t
      ≡ₚ beat_key
           <$> beats_for (target b)
                 (emplaced (plan_trace
                    (requests_for_range vnode_default c interval now)))
    ∧ ∀ x,
        x ∈ beats_for (target b)
              (emplaced (plan_trace
                 (requests_for_range vnode_default c interval now))) →
        find_group (group (hb_meta x.1)) reg'
        = (λ i, heartbeat_request_error
                  (process_append_entries_reply
                     (update_suppress_heartbeats
                        (update_heartbeat_status i (hb_target_node_id x.1) false)
                        (hb_target_node_id x.1) x.2 false)
                     (target b) (Err e) x.2 (prev_log_index (hb_meta x.1))))
            <$> find_group (group (hb_meta x.1)) reg.
Proof.
  intros (l & Hb & _ & Hl)%requests_for_range_batch Hnd Hreg.
  rewrite <- Hl. rewrite Hb in Hnd, Hreg |- *.
  cbn [build_node_heartbeat request meta_map target fst snd] in *.
  unfold heartbeat_continuation, process_reply.
  cbn [target meta_map].
  pose proof (process_reply_error_trace (target b) e
                (map_to_list (build_meta_map l)) reg) as Ht.
  pose proof (λ g, process_reply_error_registry (target b) e
                     (map_to_list (build_meta_map l)) reg g
                     (NoDup_fst_map_to_list (build_meta_map l))) as Hr.
  destruct (process_reply_error _ e _ reg) as [reg' t]. cbn [fst snd] in Ht, Hr.
  exists reg', (log_could_not_send (target b) e :: t). split; [done|].
  rewrite Ht. change (suppress_off_calls (log_could_not_send (target b) e :: ?t))
    with (suppress_off_calls t).
  set (kv := λ x : heartbeat_metadata * Z, (group (hb_meta x.1), request_meta_of x)).
  assert (Hkeys : (kv <$> l).*1 = request_groups l.*1).
  { unfold request_groups. rewrite <- !list_fmap_compose. done. }
  assert (Hperm : map_to_list (build_meta_map l) ≡ₚ kv <$> l).
  { rewrite build_meta_map_list_to_map. apply map_to_list_to_map.
    by rewrite Hkeys. }
  split.
  - rewrite suppress_off_calls_error.
    + rewrite Hperm, <- list_fmap_compose. done.
    + apply Forall_forall. intros [g fm] Hin. cbn [fst]. apply Hreg.
      rewrite <- Hkeys. rewrite Hperm in Hin.
      apply list_elem_of_fmap. by exists (g, fm).
  - intros x Hx. rewrite Hr, list_to_map_to_list.
    unfold build_meta_map. rewrite build_meta_map_lookup_gen, lookup_empty.
    rewrite (first_of_group_NoDup l x Hnd Hx).
    cbn [fmap option_fmap option_map].
    by destruct (find_group (group (hb_meta x.1)) reg).
Qed.

End plan_then_route.

(** ** The timer loop *)

Section timer_loop_facts.
Context {C T : Type} `{!Consensus C} `{!ClientProtocol T}.
Variable vnode_default : vnode.

(** X14: on an open gate [dispatch_heartbeats] always runs the cycle to a
    result.  If the gate is still open when the cycle is over, the timer
    is armed for the end of the cycle plus the interval whether the cycle
    completed or threw, and a thrown exception is logged after that; if
    the gate was closed during the cycle the timer is not armed. *)
Theorem dispatch_heartbeats_rearms (s : manager_state)
    now now_send now_end now_hbeat closed_at_end :
  bghbeats_closed s = false →
  ∃ s' t m' tr c,
    dispatch_heartbeats vnode_default s now now_send now_end now_hbeat closed_at_end
    = Some (cycle_ran s' t)
    ∧ do_dispatch_heartbeats vnode_default (hm s) now now_send = Some (m', tr, c)
    ∧ hm s' = m'
    ∧ hbeat s' = now_hbeat
    ∧ (closed_at_end = false →
         heartbeat_timer s' = Some (now_end + heartbeat_interval (hm s))%Z
         ∧ t = (dispatch_event <$> tr)
                 ++ timer_arm (now_end + heartbeat_interval (hm s))%Z
                 :: match c with
                    | completed => []
                    | threw e => [log_error_dispatching e]
                    end)
    ∧ (closed_at_end = true →
         heartbeat_timer s' = heartbeat_timer s
         ∧ Forall (λ e, ∀ x, e ≠ timer_arm x) t).
Proof.
  intros Hg. unfold dispatch_heartbeats. rewrite Hg.
  destruct (do_dispatch_heartbeats_defined vnode_default (hm s) now now_send)
    as (m' & tr & c & Hd & Hi & _).
  rewrite Hd. eexists _, _, m', tr, c.
  split; [done|]. split; [done|]. split; [done|]. split; [done|].
  cbn [heartbeat_timer]. rewrite Hi. split.
  - intros ->. done.
  - intros ->. split; [done|]. rewrite !Forall_app. split; [|split].
    + apply Forall_fmap, Forall_forall. by intros e _ x.
    + constructor.
    + destruct c; repeat constructor. by intros x.
Qed.

End timer_loop_facts.

(** ** The definitions at work on the sample instance *)

Section samples.

Local Abbreviation v2 := (mk_vnode 2 0).
Local Abbreviation no_plan := (mk_planner ∅ ∅).

(** The scenario of two voters of one group on one node: the batch for
    node 2 holds two beats of group 7 and its [meta_map] one entry. *)
Lemma meta_map_matches_request_witness :
  sample_same_node_batch
    ∈ requests (reqs (requests_for_range sample_default_vnode sample_same_node 100 1000))
  ∧ dom (meta_map sample_same_node_batch)
    = list_to_set (request_groups (request sample_same_node_batch))
  ∧ ∀ g, g ∈ request_groups (request sample_same_node_batch) →
      ∃ fm, entries_of g (meta_map sample_same_node_batch) = [(g, fm)].
Proof.
  assert (H : sample_same_node_batch
    ∈ requests (reqs (requests_for_range sample_default_vnode sample_same_node 100 1000))).
  { vm_compute. repeat constructor. }
  split; [exact H|].
  exact (meta_map_matches_request sample_default_vnode sample_same_node 100 1000
           sample_same_node_batch H).
Defined.

(** Two groups with a follower on node 2 give one batch for node 2. *)
Lemma one_batch_per_node_witness :
  NoDup (target <$> requests
           (reqs (requests_for_range sample_default_vnode sample_two 100 1000)))
  ∧ sample_two_batch
      ∈ requests (reqs (requests_for_range sample_default_vnode sample_two 100 1000))
  ∧ request sample_two_batch
    = (beats_for (target sample_two_batch)
         (emplaced (plan_trace
            (requests_for_range sample_default_vnode sample_two 100 1000)))).*1.
Proof.
  assert (H : sample_two_batch
    ∈ requests (reqs (requests_for_range sample_default_vnode sample_two 100 1000))).
  { vm_compute. repeat constructor. }
  destruct (one_batch_per_node sample_default_vnode sample_two 100 1000)
    as (Hnd & _ & Hreq).
  split; [exact Hnd|]. split; [exact H|]. exact (proj1 (Hreq _ H)).
Defined.

(** A follower appended to at time 950 is skipped at time 1000 with
    interval 100. *)
Lemma piggyback_elision_witness :
  v2 ≠ self (sample_leader 7 [v2] 950)
  ∧ are_heartbeats_suppressed (sample_leader 7 [v2] 950) v2 = false
  ∧ (1000 - 100 < last_append_timestamp (sample_leader 7 [v2] 950) v2)%Z
  ∧ maybe_create_follower_request sample_default_vnode 7 (1000 - 100)%Z v2
      (sample_leader 7 [v2] 950, no_plan)
    = ((sample_leader 7 [v2] 950, no_plan),
       [log_skipping_beat v2 7 (1000 - 100)%Z 950%Z]).
Proof.
  assert (H1 : v2 ≠ self (sample_leader 7 [v2] 950)) by discriminate.
  assert (H2 : are_heartbeats_suppressed (sample_leader 7 [v2] 950) v2 = false)
    by reflexivity.
  assert (H3 : (1000 - 100 < last_append_timestamp (sample_leader 7 [v2] 950) v2)%Z)
    by reflexivity.
  split; [exact H1|]. split; [exact H2|]. split; [exact H3|].
  exact (proj1 (piggyback_elision sample_default_vnode 7 1000 100 v2
                  (sample_leader 7 [v2] 950) no_plan H1 H2 H3)).
Defined.

(** A single-voter leader gets its self beat although its vnode is marked
    suppressed and it was appended to at the time of the run. *)
Lemma self_beat_unconditional_witness :
  is_leader sample_single = true
  ∧ config sample_single = [self sample_single]
  ∧ are_heartbeats_suppressed sample_single (self sample_single) = true
  ∧ last_append_timestamp sample_single (self sample_single) = 1000%Z
  ∧ requests_for_range sample_default_vnode [(7%Z, sample_single)] 100 1000
    = mk_planned
        (mk_heartbeat_requests
           [mk_node_heartbeat 1 [self_beat sample_default_vnode sample_single]
              {[7%Z := mk_follower_request_meta 0 12 sample_default_vnode]}]
           ∅)
        [(7%Z, sample_single)]
        [pending_emplace 1 (self_beat sample_default_vnode sample_single) 0].
Proof.
  assert (H1 : is_leader sample_single = true) by reflexivity.
  assert (H2 : config sample_single = [self sample_single]) by reflexivity.
  split; [exact H1|]. split; [exact H2|]. split; [reflexivity|]. split; [reflexivity|].
  exact (proj2 (self_beat_unconditional sample_default_vnode 7 sample_single)
           H1 H2 100%Z 1000%Z).
Defined.

(** A follower that is due: sequence number 5 is taken, suppression goes
    on with 5, the beat is queued for node 2 behind the beat that was
    already there, the vector of node 3 is untouched, and node 2 joins the
    reconnect set because the follower keeps failing. *)
Lemma follower_request_order_witness :
  v2 ≠ self (sample_failing_leader 7 [v2])
  ∧ are_heartbeats_suppressed (sample_failing_leader 7 [v2]) v2 = false
  ∧ (last_append_timestamp (sample_failing_leader 7 [v2]) v2 ≤ 900)%Z
  ∧ maybe_create_follower_request sample_default_vnode 7 900 v2
      (sample_failing_leader 7 [v2],
       mk_planner {[2%Z := [(sample_beat 6 v2, 4%Z)];
                    3%Z := [(sample_beat 6 (mk_vnode 3 0), 9%Z)]]} ∅)
    = ((mk_sample_group true (mk_vnode 1 0) (sample_meta 7)
          [mk_vnode 1 0; v2] [v2] 0 6 [v2] [] 0,
        mk_planner
          {[2%Z := [(sample_beat 6 v2, 4%Z); (sample_beat 7 v2, 5%Z)];
            3%Z := [(sample_beat 6 (mk_vnode 3 0), 9%Z)]]}
          {[2%Z]}),
       [call_next_follower_sequence 7 v2 5;
        call_update_suppress_heartbeats 7 v2 5 true;
        pending_emplace 2 (sample_beat 7 v2) 5]).
Proof.
  assert (H1 : v2 ≠ self (sample_failing_leader 7 [v2])) by discriminate.
  assert (H2 : are_heartbeats_suppressed (sample_failing_leader 7 [v2]) v2 = false)
    by reflexivity.
  assert (H3 : (last_append_timestamp (sample_failing_leader 7 [v2]) v2 ≤ 900)%Z)
    by discriminate.
  split; [exact H1|]. split; [exact H2|]. split; [exact H3|].
  etransitivity;
    [exact (follower_request_order sample_default_vnode 7 900 v2
              (sample_failing_leader 7 [v2])
              (mk_planner {[2%Z := [(sample_beat 6 v2, 4%Z)];
                            3%Z := [(sample_beat 6 (mk_vnode 3 0), 9%Z)]]} ∅)
              H1 H2 H3)|].
  vm_compute. reflexivity.
Defined.

(** A transport error for a batch with entries for groups 7 and 9, on a
    registry that has groups 7 and 8, with the heartbeat of group 7 to
    node 2 in flight: four calls for group 7, the error log line for group
    9.  Afterwards the instance of group 7 has the follower down as failed
    once more, no longer suppressed, the error as its reply and one more
    request error counted; group 8 is as it was and group 9 is still not
    registered. *)
Lemma transport_error_routing_witness :
  ∃ reg',
    process_reply 2 sample_meta_map (Err 11) sample_in_flight_registry
    = Some (reg',
            [log_could_not_send 2 11;
             call_update_heartbeat_status 7 v2 false;
             call_update_suppress_heartbeats 7 v2 5 false;
             call_process_append_entries_reply 7 2 (Err 11) 5 12;
             call_heartbeat_request_error 7;
             log_cannot_find_consensus_group 9])
    ∧ find_group 9 reg' = None
    ∧ find_group 8 reg' = find_group 8 sample_in_flight_registry
    ∧ find_group 7 reg'
      = Some (mk_sample_group true (mk_vnode 1 0) (sample_meta 7)
                [mk_vnode 1 0; v2] [] 0 6 [v2; v2] [Err 11] 1).
Proof.
  destruct (transport_error_routing 2 11 sample_meta_map sample_in_flight_registry)
    as (reg' & Heq & _ & Hreg).
  exists reg'. split; [|split; [|split]].
  - etransitivity; [exact Heq|]. vm_compute. reflexivity.
  - etransitivity; [exact (Hreg 9%Z)|]. vm_compute. reflexivity.
  - etransitivity; [exact (Hreg 8%Z)|]. vm_compute. reflexivity.
  - etransitivity; [exact (Hreg 7%Z)|]. vm_compute. reflexivity.
Defined.

(** A reply for group 7 alone is routed; one that also names group 8,
    which the registry has and the [meta_map] lacks, has no result. *)
Lemma success_path_needs_meta_witness :
  is_Some (process_reply 2 sample_meta_map (Ok [sample_reply 7]) sample_two)
  ∧ sample_reply 8 ∈ [sample_reply 7; sample_reply 8]
  ∧ is_Some (find_group (reply_group (sample_reply 8)) sample_two)
  ∧ sample_meta_map !! reply_group (sample_reply 8) = None
  ∧ process_reply 2 sample_meta_map (Ok [sample_reply 7; sample_reply 8]) sample_two
    = None.
Proof.
  assert (H1 : ∀ m, m ∈ [sample_reply 7] →
                 is_Some (sample_meta_map !! reply_group m)).
  { intros m Hm. apply list_elem_of_singleton in Hm. rewrite Hm.
    exists (mk_follower_request_meta 5 12 v2). vm_compute. reflexivity. }
  assert (H2 : sample_reply 8 ∈ [sample_reply 7; sample_reply 8])
    by (right; left).
  assert (H3 : is_Some (find_group (reply_group (sample_reply 8)) sample_two))
    by (eexists; reflexivity).
  assert (H4 : sample_meta_map !! reply_group (sample_reply 8) = None)
    by (vm_compute; reflexivity).
  split; [exact (proj1 (success_path_needs_meta 2 sample_meta_map
                          [sample_reply 7] sample_two) H1)|].
  split; [exact H2|]. split; [exact H3|]. split; [exact H4|].
  exact (proj2 (success_path_needs_meta 2 sample_meta_map
                  [sample_reply 7; sample_reply 8] sample_two)
           (sample_reply 8) H2 H3 H4).
Defined.

(** A batch addressed to node 1 on the manager of node 1: the three calls
    of the success path, no call on the client protocol. *)
Lemma self_heartbeat_is_local_witness :
  target sample_self_batch = 1%Z
  ∧ ∃ reg',
      send_heartbeats 1 50 1000 [sample_self_batch] sample_one
      = Some (reg',
              [call_update_heartbeat_status 7 sample_default_vnode true;
               call_update_suppress_heartbeats 7 sample_default_vnode 0 false;
               call_process_append_entries_reply 7 1
                 (Ok (mk_append_entries_reply
                        sample_default_vnode sample_default_vnode 7 success))
                 0 12]).
Proof.
  assert (H : target sample_self_batch = 1%Z) by reflexivity.
  split; [exact H|]. eexists.
  etransitivity;
    [exact (proj1 (self_heartbeat_is_local 1 50 1000 [] sample_self_batch []
                     sample_one H))|].
  vm_compute. reflexivity.
Defined.

(** A failing [ensure_disconnect] is not swallowed: node 2 is in the
    reconnect set and a batch for node 2 is planned, [ensure_disconnect 2]
    throws, and the cycle ends with that exception without any
    [heartbeat] call. *)
Lemma disconnect_failure_ends_cycle :
  elements (reconnect (reqs (requests_for_range sample_default_vnode
     [(7%Z, sample_failing_leader 7 [v2])] 100 1000))) = [2%Z]
  ∧ expected_sends 1 50 1000
      (requests (reqs (requests_for_range sample_default_vnode
         [(7%Z, sample_failing_leader 7 [v2])] 100 1000)))
    = [call_heartbeat 2 [sample_beat 7 v2] 1050 compression_zstd 512]
  ∧ ∃ m' t,
      do_dispatch_heartbeats sample_default_vnode
        (sample_manager [2%Z] [(7%Z, sample_failing_leader 7 [v2])]) 1000 1000
      = Some (m', t, threw 1)
      ∧ disconnect_calls t = [(2%Z, inr 1%Z)]
      ∧ filter is_heartbeat_call t = [].
Proof.
  split; [vm_compute; reflexivity|]. split; [vm_compute; reflexivity|].
  eexists _, _. split; [vm_compute; reflexivity|].
  split; vm_compute; reflexivity.
Qed.

(** With a client protocol that answers, the same cycle disconnects node
    2 and then sends to it. *)
Lemma disconnect_then_send_sample :
  ∃ m' t,
    do_dispatch_heartbeats sample_default_vnode
      (sample_manager [] [(7%Z, sample_failing_leader 7 [v2])]) 1000 1000
    = Some (m', t, completed)
    ∧ filter is_transport_call t
      = [call_ensure_disconnect 2 (inl true);
         call_heartbeat 2 [sample_beat 7 v2] 1050 compression_zstd 512].
Proof.
  eexists _, _. split; vm_compute; reflexivity.
Qed.

(** Group 9 is registered after groups 7 and 8. *)
Lemma register_group_spec_witness :
  registry_ok sample_two
  ∧ register_group (9%Z, sample_single) sample_two
    = Some (sample_two ++ [(9%Z, sample_single)])
  ∧ registry_ok (sample_two ++ [(9%Z, sample_single)])
  ∧ find_group 9 (sample_two ++ [(9%Z, sample_single)]) = Some sample_single.
Proof.
  assert (Hok : registry_ok sample_two).
  { split; [repeat constructor|]. split; [constructor|exact I]. }
  assert (Hr : register_group (9%Z, sample_single) sample_two
               = Some (sample_two ++ [(9%Z, sample_single)])) by reflexivity.
  destruct (proj2 (register_group_spec 9 sample_single sample_two Hok) _ Hr)
    as (H1 & H2 & _).
  split; [exact Hok|]. split; [exact Hr|]. split; [exact H1|exact H2].
Defined.

(** Group 7 is deregistered; group 8 stays. *)
Lemma deregister_group_spec_witness :
  registry_ok sample_two
  ∧ deregister_group 7 sample_two = Some (drop 1 sample_two)
  ∧ find_group 7 (drop 1 sample_two) = None
  ∧ find_group 8 (drop 1 sample_two) = find_group 8 sample_two.
Proof.
  assert (Hok : registry_ok sample_two).
  { split; [repeat constructor|]. split; [constructor|exact I]. }
  assert (Hd : deregister_group 7 sample_two = Some (drop 1 sample_two))
    by reflexivity.
  destruct (proj2 (deregister_group_spec 7 sample_two Hok) _ Hd)
    as (_ & H2 & H3).
  split; [exact Hok|]. split; [exact Hd|]. split; [exact H2|].
  apply H3. discriminate.
Defined.

Lemma register_deregister_round_trip_witness :
  registry_ok sample_two
  ∧ find_group 9 sample_two = None
  ∧ register_group (9%Z, sample_single) sample_two ≫= deregister_group 9
    = Some sample_two.
Proof.
  assert (Hok : registry_ok sample_two).
  { split; [repeat constructor|]. split; [constructor|exact I]. }
  assert (Hn : find_group 9 sample_two = None) by reflexivity.
  split; [exact Hok|]. split; [exact Hn|].
  exact (proj1 (register_deregister_round_trip 9 sample_single sample_two Hok) Hn).
Defined.

(** A manager whose only group has another leader. *)
Lemma idle_cycle_witness :
  Forall (λ x, is_leader x.2 = false)
         (consensus_groups (sample_manager [] [(7%Z, sample_follower_group)]))
  ∧ do_dispatch_heartbeats sample_default_vnode
      (sample_manager [] [(7%Z, sample_follower_group)]) 1000 1000
    = Some (sample_manager [] [(7%Z, sample_follower_group)], [], completed).
Proof.
  assert (H : Forall (λ x, is_leader x.2 = false)
                (consensus_groups (sample_manager [] [(7%Z, sample_follower_group)])))
    by (repeat constructor).
  split; [exact H|].
  exact (idle_cycle sample_default_vnode _ 1000 1000 H).
Defined.

(** Node 2 is in the reconnect set and has its batch. *)
Lemma reconnect_nodes_have_batch_witness :
  2%Z ∈ reconnect (reqs (requests_for_range sample_default_vnode
                     [(7%Z, sample_failing_leader 7 [v2])] 100 1000))
  ∧ ∃ b, b ∈ requests (reqs (requests_for_range sample_default_vnode
                          [(7%Z, sample_failing_leader 7 [v2])] 100 1000))
         ∧ target b = 2%Z.
Proof.
  assert (H : 2%Z ∈ reconnect (reqs (requests_for_range sample_default_vnode
                     [(7%Z, sample_failing_leader 7 [v2])] 100 1000))).
  { apply elem_of_elements. vm_compute. repeat constructor. }
  split; [exact H|].
  exact (reconnect_nodes_have_batch sample_default_vnode _ 100 1000 2 H).
Defined.

(** With two revisions of node 2 in group 7 the [meta_map] entry is the
    one of the first beat, sequence number 5. *)
Lemma meta_map_first_beat_witness :
  sample_same_node_batch
    ∈ requests (reqs (requests_for_range sample_default_vnode sample_same_node 100 1000))
  ∧ meta_map sample_same_node_batch !! 7%Z
    = request_meta_of
        <$> first_of_group 7
              (beats_for (target sample_same_node_batch)
                 (emplaced (plan_trace
                    (requests_for_range sample_default_vnode sample_same_node
                       100 1000))))
  ∧ request_meta_of
      <$> first_of_group 7
            (beats_for (target sample_same_node_batch)
               (emplaced (plan_trace
                  (requests_for_range sample_default_vnode sample_same_node
                     100 1000))))
    = Some (mk_follower_request_meta 5 12 v2).
Proof.
  assert (H : sample_same_node_batch
    ∈ requests (reqs (requests_for_range sample_default_vnode sample_same_node 100 1000))).
  { vm_compute. repeat constructor. }
  split; [exact H|]. split; [|vm_compute; reflexivity].
  exact (meta_map_first_beat sample_default_vnode sample_same_node 100 1000
           sample_same_node_batch 7 H).
Defined.

(** A reply for group 7 routed on a registry with groups 7 and 8, with
    the heartbeat of group 7 to node 2 in flight: the three calls, after
    which the instance of group 7 has the follower no longer down as
    failed, no longer suppressed, and the entry as its reply; group 8 is
    as it was. *)
Lemma success_routing_witness :
  ∃ reg' t,
    process_reply 2 sample_meta_map (Ok [sample_reply 7]) sample_in_flight_registry
    = Some (reg', t)
    ∧ t = [call_update_heartbeat_status 7 v2 true;
           call_update_suppress_heartbeats 7 v2 5 false;
           call_process_append_entries_reply 7 2 (Ok (sample_reply 7)) 5 12]
    ∧ find_group 7 reg'
      = Some (mk_sample_group true (mk_vnode 1 0) (sample_meta 7)
                [mk_vnode 1 0; v2] [] 0 6 [] [Ok (sample_reply 7)] 0)
    ∧ find_group 8 reg' = find_group 8 sample_in_flight_registry.
Proof.
  destruct (process_reply 2 sample_meta_map (Ok [sample_reply 7])
              sample_in_flight_registry) as [[reg' t]|] eqn:H;
    [|exfalso; revert H; vm_compute; discriminate].
  exists reg', t. split; [reflexivity|].
  destruct (success_routing 2 sample_meta_map [sample_reply 7]
              sample_in_flight_registry reg' t H) as (Ht & _ & Hf & _).
  split; [|split].
  - etransitivity; [exact Ht|]. vm_compute. reflexivity.
  - etransitivity; [exact (Hf 7%Z)|]. vm_compute. reflexivity.
  - etransitivity; [exact (Hf 8%Z)|]. vm_compute. reflexivity.
Defined.

Lemma process_reply_keeps_groups_witness :
  registry_ok sample_two
  ∧ ∃ reg' t,
      process_reply 2 sample_meta_map (Err 11) sample_two = Some (reg', t)
      ∧ reg'.*1 = sample_two.*1
      ∧ registry_ok reg'.
Proof.
  assert (Hok : registry_ok sample_two).
  { split; [repeat constructor|]. split; [constructor|exact I]. }
  split; [exact Hok|]. eexists _, _.
  assert (H : process_reply 2 sample_meta_map (Err 11) sample_two
              = Some (_, _)) by (vm_compute; reflexivity).
  split; [exact H|].
  destruct (process_reply_keeps_groups 2 sample_meta_map (Err 11) sample_two _ _ H)
    as [H1 H2].
  split; [exact H1|exact (H2 Hok)].
Defined.

(** A cycle on two groups with followers on nodes 2 and 3. *)
Lemma heartbeat_calls_of_cycle_witness :
  ∃ m' t c,
    do_dispatch_heartbeats sample_default_vnode (sample_manager [] sample_two)
      1000 1000 = Some (m', t, c)
    ∧ hc_target <$> heartbeat_calls t = [3%Z; 2%Z]
    ∧ NoDup (hc_target <$> heartbeat_calls t)
    ∧ Forall (λ h, hc_target h ≠ 1%Z
                   ∧ hc_request h ≠ []
                   ∧ hc_deadline h = 1050%Z
                   ∧ hc_compression h = compression_zstd
                   ∧ hc_min_compression_bytes h = 512%Z)
             (heartbeat_calls t).
Proof.
  eexists _, _, _.
  assert (H : do_dispatch_heartbeats sample_default_vnode
                (sample_manager [] sample_two) 1000 1000 = Some (_, _, _))
    by (vm_compute; reflexivity).
  split; [exact H|]. split; [vm_compute; reflexivity|].
  exact (heartbeat_calls_of_cycle sample_default_vnode _ _ 1000 1000 _ _ H).
Defined.

(** The single-voter leader of group 7 on node 1. *)
Lemma single_node_cycle_witness :
  consensus_groups (sample_manager [] [(7%Z, sample_single)])
    = [(7%Z, sample_single)]
  ∧ is_leader sample_single = true
  ∧ config sample_single = [self sample_single]
  ∧ group (meta sample_single) = 7%Z
  ∧ self_node (sample_manager [] [(7%Z, sample_single)])
    = vnode_id (self sample_single)
  ∧ do_dispatch_heartbeats sample_default_vnode
      (sample_manager [] [(7%Z, sample_single)]) 1000 1000
    = Some (sample_manager []
              [(7%Z,
                mk_sample_group true (mk_vnode 1 0) (sample_meta 7)
                  [mk_vnode 1 0] [mk_vnode 1 0] 1000 5 []
                  [Ok (mk_append_entries_reply
                         sample_default_vnode sample_default_vnode 7 success)]
                  0)],
              [pending_emplace 1 (self_beat sample_default_vnode sample_single) 0;
               call_update_heartbeat_status 7 sample_default_vnode true;
               call_update_suppress_heartbeats 7 sample_default_vnode 0 false;
               call_process_append_entries_reply 7 1
                 (Ok (mk_append_entries_reply
                        sample_default_vnode sample_default_vnode 7 success))
                 0 12],
              completed).
Proof.
  split; [reflexivity|]. split; [reflexivity|]. split; [reflexivity|].
  split; [reflexivity|]. split; [reflexivity|].
  etransitivity;
    [exact (single_node_cycle sample_default_vnode
              (sample_manager [] [(7%Z, sample_single)]) 7 sample_single 1000 1000
              eq_refl eq_refl eq_refl eq_refl eq_refl)|].
  vm_compute. reflexivity.
Defined.

(** Two groups are planned, then the batch for node 2 comes back with a
    transport error: suppression goes off for both followers with the
    sequence numbers queued, and both instances have the follower down as
    failed, no longer suppressed (group 8 still waits for node 3), the
    error as reply and one request error counted. *)
Lemma transport_error_lifts_suppression_witness :
  sample_two_batch
    ∈ requests (reqs (requests_for_range sample_default_vnode sample_two 100 1000))
  ∧ NoDup (request_groups (request sample_two_batch))
  ∧ ∃ reg' t,
      heartbeat_continuation sample_two_batch (Err 11)
        (groups_after (requests_for_range sample_default_vnode sample_two 100 1000))
      = Some (reg', t)
      ∧ suppress_off_calls t
        ≡ₚ beat_key
             <$> beats_for (target sample_two_batch)
                   (emplaced (plan_trace
                      (requests_for_range sample_default_vnode sample_two
                         100 1000)))
      ∧ suppress_off_calls t = [(7%Z, v2, 5%Z); (8%Z, v2, 5%Z)]
      ∧ find_group 7 reg'
        = Some (mk_sample_group true (mk_vnode 1 0) (sample_meta 7)
                  [mk_vnode 1 0; v2] [] 0 6 [v2] [Err 11] 1)
      ∧ find_group 8 reg'
        = Some (mk_sample_group true (mk_vnode 1 0) (sample_meta 8)
                  [mk_vnode 1 0; v2; mk_vnode 3 0] [mk_vnode 3 0] 0 7 [v2]
                  [Err 11] 1).
Proof.
  assert (H : sample_two_batch
    ∈ requests (reqs (requests_for_range sample_default_vnode sample_two 100 1000))).
  { vm_compute. repeat constructor. }
  assert (Hnd : NoDup (request_groups (request sample_two_batch))).
  { apply (NoDup_ListNoDup [7%Z; 8%Z]). repeat constructor; simpl; intuition lia. }
  assert (Hreg : ∀ g, g ∈ request_groups (request sample_two_batch) →
                   is_Some (find_group g
                      (groups_after (requests_for_range sample_default_vnode
                                       sample_two 100 1000)))).
  { intros g Hg. change (g ∈ [7%Z; 8%Z]) in Hg.
    apply elem_of_cons in Hg as [->|Hg]; [eexists; vm_compute; reflexivity|].
    apply list_elem_of_singleton in Hg as ->. eexists; vm_compute; reflexivity. }
  assert (H7 : (sample_beat 7 v2, 5%Z)
    ∈ beats_for (target sample_two_batch)
        (emplaced (plan_trace
           (requests_for_range sample_default_vnode sample_two 100 1000)))).
  { vm_compute. repeat constructor. }
  assert (H8 : (sample_beat 8 v2, 5%Z)
    ∈ beats_for (target sample_two_batch)
        (emplaced (plan_trace
           (requests_for_range sample_default_vnode sample_two 100 1000)))).
  { vm_compute. repeat constructor. }
  split; [exact H|]. split; [exact Hnd|].
  destruct (transport_error_lifts_suppression sample_default_vnode sample_two
              100 1000 sample_two_batch 11 _ H Hnd Hreg)
    as (reg' & t & Heq & Hp & Hst).
  exists reg', t. split; [exact Heq|]. split; [exact Hp|]. split; [|split].
  - assert (Hc : heartbeat_continuation sample_two_batch (Err 11)
                   (groups_after (requests_for_range sample_default_vnode
                                    sample_two 100 1000))
                 = Some (_, _)) by (vm_compute; reflexivity).
    rewrite Hc in Heq. injection Heq as <- <-. vm_compute. reflexivity.
  - etransitivity; [exact (Hst _ H7)|]. vm_compute. reflexivity.
  - etransitivity; [exact (Hst _ H8)|]. vm_compute. reflexivity.
Defined.

(** A cycle in which [ensure_disconnect] throws: the timer is armed all
    the same and the exception is logged last. *)
Lemma dispatch_heartbeats_rearms_witness :
  bghbeats_closed
    (sample_manager_state [2%Z] [(7%Z, sample_failing_leader 7 [v2])]) = false
  ∧ ∃ s' t,
      dispatch_heartbeats sample_default_vnode
        (sample_manager_state [2%Z] [(7%Z, sample_failing_leader 7 [v2])])
        1000 1000 1003 1000 false
      = Some (cycle_ran s' t)
      ∧ heartbeat_timer s' = Some 1103%Z
      ∧ last t = Some (log_error_dispatching 1).
Proof.
  split; [reflexivity|].
  destruct (dispatch_heartbeats_rearms sample_default_vnode
              (sample_manager_state [2%Z] [(7%Z, sample_failing_leader 7 [v2])])
              1000 1000 1003 1000 false eq_refl)
    as (s' & t & m' & tr & c & Heq & Hd & _ & _ & Harm & _).
  exists s', t. split; [exact Heq|].
  destruct (Harm eq_refl) as [Ht Htr]. split; [exact Ht|].
  assert (Hc : do_dispatch_heartbeats sample_default_vnode
                 (hm (sample_manager_state [2%Z]
                        [(7%Z, sample_failing_leader 7 [v2])])) 1000 1000
               = Some (_, _, threw 1)) by (vm_compute; reflexivity).
  rewrite Hc in Hd. injection Hd as <- <- <-. rewrite Htr.
  rewrite last_app. reflexivity.
Defined.

End samples.
